(** * WebAuthn demo: the Express back end and the React password fallback

    A shallow embedding of the route handlers of [backend/server.js] (the
    current file and the earlier revisions kept in the repository) and of
    [loginPassword] from [frontend/src/App.jsx].

    The process-wide [users] map (a JS [Map] from email to a mutable user
    object) is a [gmap string User] threaded through every handler.  The
    calls into [@simplewebauthn/server] and [uuid] are not code of this
    repository: they are the fields of a [Library] record handed to each
    handler, one record per request (so that two requests may draw two
    different challenges).  A library call either returns or throws; a
    throw lands in the handler's [catch] block.

    Emails, challenges, credential ids and keys are strings; an absent or
    [undefined] value is [None].  The byte-array conversions around stored
    ids and keys ([isoUint8Array.toBuffer], [fromUTF8String], base64url)
    keep the bytes and are not modelled, and [Buffer.compare(a, b) === 0]
    and [a === b] on ids are equality of those bytes.  Logging has no
    effect on the state or the reply and is left out. *)

From stdpp Require Import gmap strings list fin_maps.
From Stdlib Require Import NArith ZArith.

Local Open Scope string_scope.

(** ** Data model *)

(** An element of [user.devices]. *)
Record Device := {
  credentialID : string;
  credentialPublicKey : string;
  counter : N;
}.

(** A value of the [users] map.  [currentChallenge] is [None] when the
    property is absent ([delete user.currentChallenge]) or [undefined]. *)
Record User := {
  user_id : string;
  user_email : string;
  devices : list Device;
  currentChallenge : option string;
}.

(** JS truthiness of a value that is a string or [undefined]. *)
Definition truthy (v : option string) : bool :=
  match v with
  | Some s => negb (String.eqb s "")
  | None => false
  end.

(** [typeof v === 'string'] on the same values. *)
Definition is_string (v : option string) : bool :=
  match v with Some _ => true | None => false end.

(** The authenticator's answer as posted by the browser.  The handlers read
    [response.id] only; the other fields are what the library decodes from
    the payload (client-data type and challenge, authenticator-data
    counter). *)
Record Response := {
  resp_id : string;
  resp_type : string;
  resp_challenge : string;
  resp_counter : N;
}.

(** [req.body] of the POST routes. *)
Record ReqBody := {
  email : option string;
  response : option Response;
}.

(** ** The library interface *)

(** A library call returns a value or throws an error with a message. *)
Inductive Outcome (A : Type) :=
| Returned (a : A)
| Threw (message : string).
Arguments Returned {A} a.
Arguments Threw {A} message.

Record AuthenticatorSelection := {
  authenticatorAttachment : option string;
  userVerification : option string;
  residentKey : option string;
  requireResidentKey : option bool;
}.

Record CredentialDescriptor := {
  cd_id : string;
  cd_type : string;
  cd_transports : list string;
}.

Record RegistrationOptionsArgs := {
  rpName : string;
  rpID : string;
  userID : string;
  userName : string;
  userDisplayName : option string;
  reg_timeout : option N;
  attestationType : option string;
  excludeCredentials : list CredentialDescriptor;
  authenticatorSelection : option AuthenticatorSelection;
  supportedAlgorithmIDs : list Z;
}.

Record AuthenticationOptionsArgs := {
  auth_timeout : option N;
  auth_userVerification : option string;
  allowCredentials : list CredentialDescriptor;
  auth_rpID : string;
}.

(** What the [generate...Options] calls return; the handlers read
    [options.challenge] and send the whole object back. *)
Record Options := {
  challenge : option string;
  options_rest : string;
}.

Record VerifyRegistrationArgs := {
  vr_response : Response;
  vr_expectedChallenge : string;
  vr_expectedOrigin : string;
  vr_expectedRPID : string;
  vr_requireUserVerification : bool;
}.

Record RegistrationInfo := {
  ri_credentialID : string;
  ri_credentialPublicKey : string;
  ri_counter : N;
}.

Record RegistrationVerification := {
  rv_verified : bool;
  registrationInfo : option RegistrationInfo;
}.

Record VerifyAuthenticationArgs := {
  va_response : Response;
  va_expectedChallenge : string;
  va_expectedOrigin : string;
  va_expectedRPID : string;
  va_authenticator : Device;
  va_requireUserVerification : bool;
}.

Record AuthenticationInfo := {
  newCounter : N;
}.

Record AuthenticationVerification := {
  av_verified : bool;
  authenticationInfo : option AuthenticationInfo;
}.

(** The imported functions, as they behave during one request. *)
Record Library := {
  uuidv4 : string;
  generateRegistrationOptions : RegistrationOptionsArgs -> Outcome Options;
  generateAuthenticationOptions : AuthenticationOptionsArgs -> Outcome Options;
  verifyRegistrationResponse : VerifyRegistrationArgs -> Outcome RegistrationVerification;
  verifyAuthenticationResponse : VerifyAuthenticationArgs -> Outcome AuthenticationVerification;
  now : string;
}.

(** ** HTTP replies *)

Inductive Json :=
| JError (message : string)            (* { error: message } *)
| JOptions (o : Options)               (* the options object *)
| JVerified                            (* { verified: true } *)
| JVerifiedUser (email : option string) (* { verified: true, user: { email } } *)
| JHealth (time : string).             (* { status: 'ok', time } *)

Record Reply := {
  status : nat;
  json : Json;
}.

(** [sendError(res, status, message)]. *)
Definition sendError (st : nat) (message : string) : Reply :=
  {| status := st; json := JError message |}.

(** [res.json(v)] with the default status. *)
Definition res_json (v : Json) : Reply :=
  {| status := 200; json := v |}.


(** ** Helpers shared by the handlers *)

(** A value usable after a [!v] guard: the string itself when truthy. *)
Definition truthy_val (v : option string) : option string :=
  if truthy v then v else None.

(** [Buffer.compare(d.credentialID, response.id) === 0], read on byte
    strings: the two ids hold the same bytes. *)
Definition same_credential (r : Response) (d : Device) : bool :=
  String.eqb (credentialID d) (resp_id r).

(** [array.find(pred)]: the first element satisfying [pred], together with
    its position (the handlers mutate the element found in place). *)
Fixpoint find_first {A : Type} (pred : A -> bool) (l : list A) : option (nat * A) :=
  match l with
  | [] => None
  | x :: l' =>
      if pred x then Some (0, x)
      else match find_first pred l' with
           | Some (i, y) => Some (S i, y)
           | None => None
           end
  end.

(** [device.counter = n]. *)
Definition set_counter (n : N) (d : Device) : Device :=
  {| credentialID := credentialID d;
     credentialPublicKey := credentialPublicKey d;
     counter := n |}.

(** [devs.map(dev => ({ id: dev.credentialID, type: 'public-key' }))],
    with the [transports] the later revision adds. *)
Definition descriptors (transports : list string) (devs : list Device) : list CredentialDescriptor :=
  map (fun dev => {| cd_id := credentialID dev; cd_type := "public-key"; cd_transports := transports |}) devs.

(** ** The two verification routes

    Their text is the same in the current [backend/server.js] and in its
    axltest.lat revision, up to the expected origin and relying-party id,
    which are the section's variables. *)

Section Verification.
Variables (expectedOrigin expectedRPID : string).

(** [POST /verify-registration]. *)
Definition verify_registration (lib : Library) (users : gmap string User) (body : ReqBody)
  : gmap string User * Reply :=
  match truthy_val (email body), response body with
  | Some e, Some r =>
      match users !! e with
      | None => (users, sendError 404 "Usuario no encontrado")
      | Some user =>
          match truthy_val (currentChallenge user) with
          | None => (users, sendError 400 "No hay desafío")
          | Some expectedChallenge =>
              match verifyRegistrationResponse lib
                      {| vr_response := r;
                         vr_expectedChallenge := expectedChallenge;
                         vr_expectedOrigin := expectedOrigin;
                         vr_expectedRPID := expectedRPID;
                         vr_requireUserVerification := true |} with
              | Threw _ => (users, sendError 500 "Error al verificar registro")
              | Returned verification =>
                  match rv_verified verification, registrationInfo verification with
                  | true, Some info =>
                      let user' :=
                        {| user_id := user_id user;
                           user_email := user_email user;
                           devices := devices user ++
                             [ {| credentialID := ri_credentialID info;
                                  credentialPublicKey := ri_credentialPublicKey info;
                                  counter := ri_counter info |} ];
                           currentChallenge := None |} in
                      (<[e := user']> users, res_json JVerified)
                  | _, _ => (users, sendError 400 "Verificación fallida")
                  end
              end
          end
      end
  | _, _ => (users, sendError 400 "Faltan datos")
  end.

(** [POST /verify-authentication]. *)
Definition verify_authentication (lib : Library) (users : gmap string User) (body : ReqBody)
  : gmap string User * Reply :=
  match truthy_val (email body), response body with
  | Some e, Some r =>
      match users !! e with
      | None => (users, sendError 404 "Usuario no encontrado")
      | Some user =>
          match truthy_val (currentChallenge user) with
          | None => (users, sendError 400 "No hay desafío")
          | Some expectedChallenge =>
              match find_first (same_credential r) (devices user) with
              | None => (users, sendError 400 "Dispositivo desconocido")
              | Some (i, device) =>
                  match verifyAuthenticationResponse lib
                          {| va_response := r;
                             va_expectedChallenge := expectedChallenge;
                             va_expectedOrigin := expectedOrigin;
                             va_expectedRPID := expectedRPID;
                             va_authenticator :=
                               {| credentialID := credentialID device;
                                  credentialPublicKey := credentialPublicKey device;
                                  counter := counter device |};
                             va_requireUserVerification := true |} with
                  | Threw _ => (users, sendError 500 "Error al verificar autenticación")
                  | Returned verification =>
                      if av_verified verification then
                        match authenticationInfo verification with
                        | None =>
                            (* reading [.newCounter] of [undefined] throws *)
                            (users, sendError 500 "Error al verificar autenticación")
                        | Some info =>
                            let user' :=
                              {| user_id := user_id user;
                                 user_email := user_email user;
                                 devices := <[i := set_counter (newCounter info) device]> (devices user);
                                 currentChallenge := None |} in
                            (<[e := user']> users, res_json (JVerifiedUser (Some e)))
                        end
                      else (users, sendError 400 "Autenticación fallida")
                  end
              end
          end
      end
  | _, _ => (users, sendError 400 "Faltan datos")
  end.
End Verification.

(** [GET /api/health]. *)
Definition health (lib : Library) (users : gmap string User) (body : ReqBody)
  : gmap string User * Reply :=
  (users, res_json (JHealth (now lib))).

(** ** Routing *)

Inductive Method := GET | POST.

Definition Method_eqb (a b : Method) : bool :=
  match a, b with
  | GET, GET | POST, POST => true
  | _, _ => false
  end.

Definition Handler : Type :=
  Library -> gmap string User -> ReqBody -> gmap string User * Reply.

(** One [app.get(path, handler)] or [app.post(path, handler)]. *)
Record Route := {
  route_method : Method;
  route_path : string;
  route_handler : Handler;
}.

(** The first registered route with this method and path, if any. *)
Fixpoint dispatch (routes : list Route) (m : Method) (path : string) : option Handler :=
  match routes with
  | [] => None
  | r :: routes' =>
      if Method_eqb (route_method r) m && String.eqb (route_path r) path
      then Some (route_handler r)
      else dispatch routes' m path
  end.

(** A request either reaches a handler of the file or falls through to
    whatever the framework answers for an unknown route. *)
Inductive Served :=
| Handled (users : gmap string User) (reply : Reply)
| Unrouted.

Definition serve (routes : list Route) (lib : Library) (users : gmap string User)
    (m : Method) (path : string) (body : ReqBody) : Served :=
  match dispatch routes m path with
  | Some h => let '(users', reply) := h lib users body in Handled users' reply
  | None => Unrouted
  end.

(** ** backend/server.js, the current file (axltest.dev) *)

Module ServerJs.

(** [POST /generate-registration-options]. *)
Definition generate_registration_options (lib : Library) (users : gmap string User) (body : ReqBody)
  : gmap string User * Reply :=
  match truthy_val (email body) with
  | None => (users, sendError 400 "Email requerido")
  | Some e =>
      let userId := uuidv4 lib in
      match generateRegistrationOptions lib
              {| rpName := "AxlTest App";
                 rpID := "axltest.dev";
                 userID := userId;
                 userName := e;
                 userDisplayName := Some e;
                 reg_timeout := Some 60000%N;
                 attestationType := Some "none";
                 excludeCredentials := [];
                 authenticatorSelection :=
                   Some {| authenticatorAttachment := None;
                           userVerification := Some "preferred";
                           residentKey := Some "preferred";
                           requireResidentKey := None |};
                 supportedAlgorithmIDs := [(-7)%Z; (-257)%Z] |} with
      | Threw msg => (users, sendError 500 ("Error interno: " ++ msg))
      | Returned options =>
          (* Guardar usuario *)
          (<[e := {| user_id := userId;
                     user_email := e;
                     devices := [];
                     currentChallenge := challenge options |}]> users,
           res_json (JOptions options))
      end
  end.

Definition verify_registration : Handler :=
  verify_registration "https://axltest.dev" "axltest.dev".

Definition verify_authentication : Handler :=
  verify_authentication "https://axltest.dev" "axltest.dev".

(** The routes in the order the file registers them. *)
Definition routes : list Route :=
  [ {| route_method := POST; route_path := "/verify-registration";
       route_handler := verify_registration |};
    {| route_method := POST; route_path := "/generate-registration-options";
       route_handler := generate_registration_options |};
    {| route_method := POST; route_path := "/verify-authentication";
       route_handler := verify_authentication |};
    {| route_method := GET; route_path := "/api/health";
       route_handler := health |} ].

(** The [apiRoutes] array of the production fallback middleware: the paths
    the file itself lists as API routes. *)
Definition apiRoutes : list string :=
  [ "/generate-registration-options";
    "/verify-registration";
    "/generate-authentication-options";
    "/verify-authentication";
    "/api/health" ].

(** [apiRoutes.some(route => req.url.startsWith(route))]: the production
    fallback hands such a request on with [next()] instead of answering
    it with the front end's [index.html]. *)
Definition fallback_passes (url : string) : bool :=
  existsb (fun route => String.prefix route url) apiRoutes.

End ServerJs.

(** ** backend/server.js, the axltest.lat revision *)

Module Lat.

(** [POST /generate-registration-options]. *)
Definition generate_registration_options (lib : Library) (users : gmap string User) (body : ReqBody)
  : gmap string User * Reply :=
  if negb (truthy (email body)) || negb (is_string (email body))
  then (users, sendError 400 "Email válido es requerido")
  else
    match email body with
    | None => (users, sendError 400 "Email válido es requerido")
    | Some e =>
        let userId := uuidv4 lib in
        match generateRegistrationOptions lib
                {| rpName := "Mi App Web";
                   rpID := "axltest.lat";
                   userID := userId;
                   userName := e;
                   userDisplayName := None;
                   reg_timeout := Some 60000%N;
                   attestationType := Some "none";
                   excludeCredentials :=
                     match users !! e with
                     | Some user => descriptors [] (devices user)
                     | None => []
                     end;
                   authenticatorSelection :=
                     Some {| authenticatorAttachment := Some "platform";
                             userVerification := Some "required";
                             residentKey := None;
                             requireResidentKey := Some true |};
                   supportedAlgorithmIDs := [(-7)%Z; (-257)%Z] |} with
        | Threw _ => (users, sendError 500 "Error interno al generar opciones")
        | Returned options =>
            match users !! e with
            | None =>
                (<[e := {| user_id := userId;
                           user_email := e;
                           devices := [];
                           currentChallenge := challenge options |}]> users,
                 res_json (JOptions options))
            | Some user =>
                (<[e := {| user_id := user_id user;
                           user_email := user_email user;
                           devices := devices user;
                           currentChallenge := challenge options |}]> users,
                 res_json (JOptions options))
            end
        end
    end.

Definition verify_registration : Handler :=
  verify_registration "https://axltest.lat" "axltest.lat".

(** [POST /generate-authentication-options]. *)
Definition generate_authentication_options (lib : Library) (users : gmap string User) (body : ReqBody)
  : gmap string User * Reply :=
  match truthy_val (email body) with
  | None => (users, sendError 400 "Email requerido")
  | Some e =>
      match users !! e with
      | None => (users, sendError 404 "Usuario no registrado")
      | Some user =>
          if Nat.eqb (length (devices user)) 0
          then (users, sendError 404 "Usuario no registrado")
          else
            match generateAuthenticationOptions lib
                    {| auth_timeout := Some 60000%N;
                       auth_userVerification := Some "required";
                       allowCredentials := descriptors [] (devices user);
                       auth_rpID := "axltest.lat" |} with
            | Threw _ => (users, sendError 500 "Error al generar desafío")
            | Returned options =>
                (<[e := {| user_id := user_id user;
                           user_email := user_email user;
                           devices := devices user;
                           currentChallenge := challenge options |}]> users,
                 res_json (JOptions options))
            end
      end
  end.

Definition verify_authentication : Handler :=
  verify_authentication "https://axltest.lat" "axltest.lat".

(** The routes in the order the file registers them. *)
Definition routes : list Route :=
  [ {| route_method := POST; route_path := "/generate-registration-options";
       route_handler := generate_registration_options |};
    {| route_method := POST; route_path := "/verify-registration";
       route_handler := verify_registration |};
    {| route_method := POST; route_path := "/generate-authentication-options";
       route_handler := generate_authentication_options |};
    {| route_method := POST; route_path := "/verify-authentication";
       route_handler := verify_authentication |};
    {| route_method := GET; route_path := "/api/health";
       route_handler := health |} ].

End Lat.

(** ** backend/server.js, the revision for version 8 of the library
    (axltest.dev, credential ids kept as base64url strings) *)

Module V8.

(** [POST /generate-registration-options]. *)
Definition generate_registration_options (lib : Library) (users : gmap string User) (body : ReqBody)
  : gmap string User * Reply :=
  match truthy_val (email body) with
  | None => (users, sendError 400 "Email requerido")
  | Some e =>
      let userId := uuidv4 lib in
      match generateRegistrationOptions lib
              {| rpName := "AxlTest App";
                 rpID := "axltest.dev";
                 userID := userId;
                 userName := e;
                 userDisplayName := None;
                 reg_timeout := Some 60000%N;
                 attestationType := Some "none";
                 excludeCredentials := [];
                 authenticatorSelection :=
                   Some {| authenticatorAttachment := None;
                           userVerification := Some "preferred";
                           residentKey := None;
                           requireResidentKey := Some false |};
                 supportedAlgorithmIDs := [] |} with
      | Threw msg => (users, sendError 500 ("Error interno: " ++ msg))
      | Returned options =>
          (<[e := {| user_id := userId;
                     user_email := e;
                     devices := [];
                     currentChallenge := challenge options |}]> users,
           res_json (JOptions options))
      end
  end.

(** [POST /generate-authentication-options].  There is no guard on [email]
    here: an absent email is looked up like any other key and not found. *)
Definition generate_authentication_options (lib : Library) (users : gmap string User) (body : ReqBody)
  : gmap string User * Reply :=
  match email body ≫= (fun e => users !! e ≫= (fun user => Some (e, user))) with
  | None => (users, {| status := 404; json := JError "Usuario no registrado" |})
  | Some (e, user) =>
      (* Esta validación extra por seguridad *)
      if Nat.eqb (length (devices user)) 0
      then (users, {| status := 404; json := JError "Usuario no tiene dispositivos registrados" |})
      else
        match generateAuthenticationOptions lib
                {| auth_timeout := Some 60000%N;
                   auth_userVerification := Some "required";
                   allowCredentials := descriptors ["internal"] (devices user);
                   auth_rpID := "axltest.dev" |} with
        | Threw _ => (users, {| status := 500; json := JError "Error al generar desafío" |})
        | Returned options =>
            (<[e := {| user_id := user_id user;
                       user_email := user_email user;
                       devices := devices user;
                       currentChallenge := challenge options |}]> users,
             res_json (JOptions options))
        end
  end.

End V8.

(** ** frontend/src/App.jsx: the password fallback *)

Module App.

(** [loginPassword]: the value handed to [setStatus], from the component's
    [email] and [password] state. *)
Definition loginPassword (email password : string) : string :=
  if String.eqb password "123456"
  then "✅ Bienvenido (con contraseña), " ++ email ++ "!"
  else "❌ Contraseña incorrecta".

(** The status shown after a successful password login. *)
Definition welcome (email : string) : string :=
  "✅ Bienvenido (con contraseña), " ++ email ++ "!".

End App.

(** ** Observations on the state *)

(** The credentials stored for an identity (none for an unknown one). *)
Definition credentials_of (users : gmap string User) (e : string) : list Device :=
  match users !! e with
  | Some user => devices user
  | None => []
  end.

(** The pending challenge of an identity, if one is stored. *)
Definition pending (users : gmap string User) (e : string) : option string :=
  users !! e ≫= currentChallenge.

(** The counter stored for the credential a response names: the counter of
    the device that [verify_authentication] finds for [response.id]. *)
Definition stored_counter (users : gmap string User) (e : string) (r : Response) : option N :=
  users !! e ≫= fun user =>
  find_first (same_credential r) (devices user) ≫= fun '(_, d) =>
  Some (counter d).

(** The device pushed for a verified registration. *)
Definition device_of (info : RegistrationInfo) : Device :=
  {| credentialID := ri_credentialID info;
     credentialPublicKey := ri_credentialPublicKey info;
     counter := ri_counter info |}.

(** The counter the verifier vouches for, when it returns [verified] with
    its [authenticationInfo]; [None] when it throws, returns unverified, or
    returns no info. *)
Definition accepted (o : Outcome AuthenticationVerification) : option N :=
  match o with
  | Returned v => if av_verified v then newCounter <$> authenticationInfo v else None
  | Threw _ => None
  end.

(** The arguments [verify_authentication] hands to the verifier for a
    pending challenge and the device found. *)
Definition authentication_args (origin rpid : string) (r : Response) (c : string) (device : Device)
  : VerifyAuthenticationArgs :=
  {| va_response := r;
     va_expectedChallenge := c;
     va_expectedOrigin := origin;
     va_expectedRPID := rpid;
     va_authenticator :=
       {| credentialID := credentialID device;
          credentialPublicKey := credentialPublicKey device;
          counter := counter device |};
     va_requireUserVerification := true |}.

(** The arguments [verify_registration] hands to the verifier. *)
Definition registration_args (origin rpid : string) (r : Response) (c : string)
  : VerifyRegistrationArgs :=
  {| vr_response := r;
     vr_expectedChallenge := c;
     vr_expectedOrigin := origin;
     vr_expectedRPID := rpid;
     vr_requireUserVerification := true |}.

(** The replies of [verify_registration] that report a failure. *)
Definition registration_failures : list Reply :=
  [ sendError 400 "Faltan datos";
    sendError 404 "Usuario no encontrado";
    sendError 400 "No hay desafío";
    sendError 500 "Error al verificar registro";
    sendError 400 "Verificación fallida" ].

(** The replies of [verify_authentication] that report a failure. *)
Definition authentication_failures : list Reply :=
  [ sendError 400 "Faltan datos";
    sendError 404 "Usuario no encontrado";
    sendError 400 "No hay desafío";
    sendError 400 "Dispositivo desconocido";
    sendError 500 "Error al verificar autenticación";
    sendError 400 "Autenticación fallida" ].

(** The paths registered with [app.post], in order. *)
Definition post_paths (routes : list Route) : list string :=
  map route_path (List.filter (fun r => Method_eqb (route_method r) POST) routes).

(** A path is served when some handler is registered for it. *)
Definition routed (routes : list Route) (m : Method) (path : string) : bool :=
  match dispatch routes m path with Some _ => true | None => false end.


(** The registration verifier holds a response to the challenge it is told
    to expect: it reports [verified] only for a response made over it. *)
Definition binds_challenge (lib : Library) : Prop :=
  forall a v,
    verifyRegistrationResponse lib a = Returned v ->
    rv_verified v = true ->
    resp_challenge (vr_response a) = vr_expectedChallenge a.

(** The authentication verifier enforces the counter order: it vouches for
    a counter only if it exceeds the authenticator's, or both are zero. *)
Definition guards_counter (lib : Library) : Prop :=
  forall a m,
    accepted (verifyAuthenticationResponse lib a) = Some m ->
    (counter (va_authenticator a) < m)%N
    \/ (m = 0%N /\ counter (va_authenticator a) = 0%N).

(** ** Stand-ins for the library, to run the handlers on concrete requests *)

(** Accepts a registration response made over the expected challenge with
    the registration client-data type, and throws otherwise. *)
Definition checking_verify_registration (a : VerifyRegistrationArgs)
  : Outcome RegistrationVerification :=
  let r := vr_response a in
  if String.eqb (resp_type r) "webauthn.create"
     && String.eqb (resp_challenge r) (vr_expectedChallenge a)
  then Returned {| rv_verified := true;
                   registrationInfo :=
                     Some {| ri_credentialID := resp_id r;
                             ri_credentialPublicKey := "key of " ++ resp_id r;
                             ri_counter := resp_counter r |} |}
  else Threw "Unexpected registration response".

(** Accepts an authentication response made over the expected challenge
    with the authentication client-data type whose counter exceeds the
    authenticator's (or both are zero), and throws otherwise. *)
Definition checking_verify_authentication (a : VerifyAuthenticationArgs)
  : Outcome AuthenticationVerification :=
  let r := va_response a in
  if String.eqb (resp_type r) "webauthn.get"
     && String.eqb (resp_challenge r) (va_expectedChallenge a)
  then
    if ((0 <? resp_counter r) || (0 <? counter (va_authenticator a)))%N
       && (resp_counter r <=? counter (va_authenticator a))%N
    then Threw "Response counter value was lower than expected"
    else Returned {| av_verified := true;
                     authenticationInfo := Some {| newCounter := resp_counter r |} |}
  else Threw "Unexpected authentication response".


(** A library whose option generators draw the challenge [c]. *)
Definition library_with (uuid c : string)
    (va : VerifyAuthenticationArgs -> Outcome AuthenticationVerification) : Library :=
  {| uuidv4 := uuid;
     generateRegistrationOptions := fun _ => Returned {| challenge := Some c; options_rest := "" |};
     generateAuthenticationOptions := fun _ => Returned {| challenge := Some c; options_rest := "" |};
     verifyRegistrationResponse := checking_verify_registration;
     verifyAuthenticationResponse := va;
     now := "2024-01-01T00:00:00.000Z" |}.

Definition checking_library (uuid c : string) : Library :=
  library_with uuid c checking_verify_authentication.


Definition alice : string := "a@example.com".
Definition bob : string := "b@example.com".

(** A request body with an email and, for the verify routes, a response. *)
Definition request (e : string) (r : option Response) : ReqBody :=
  {| email := Some e; response := r |}.


Definition assertion (cred c : string) (n : N) : Response :=
  {| resp_id := cred; resp_type := "webauthn.get"; resp_challenge := c; resp_counter := n |}.

(** A store in which [alice] holds one credential at counter [n] and has
    the challenge [c] pending. *)
Definition alice_with (n : N) (c : string) : gmap string User :=
  {[ alice := {| user_id := "u-1"; user_email := alice;
                 devices := [ {| credentialID := "cred-1";
                                 credentialPublicKey := "key of cred-1";
                                 counter := n |} ];
                 currentChallenge := Some c |} ]}.

(** ** backend/server.js, the revision for version 8: the remaining routes *)

Module V8App.

(** [POST /verify-registration] and [POST /verify-authentication]: the
    text of the current file, with the stored credential id kept as the
    base64url string the browser sends in [response.id] and compared to it
    with [===]. *)
Definition verify_registration : Handler :=
  verify_registration "https://axltest.dev" "axltest.dev".

Definition verify_authentication : Handler :=
  verify_authentication "https://axltest.dev" "axltest.dev".

(** The routes in the order the file registers them. *)
Definition routes : list Route :=
  [ {| route_method := POST; route_path := "/generate-registration-options";
       route_handler := V8.generate_registration_options |};
    {| route_method := POST; route_path := "/verify-registration";
       route_handler := verify_registration |};
    {| route_method := POST; route_path := "/generate-authentication-options";
       route_handler := V8.generate_authentication_options |};
    {| route_method := POST; route_path := "/verify-authentication";
       route_handler := verify_authentication |};
    {| route_method := GET; route_path := "/api/health";
       route_handler := health |} ].

End V8App.

(** ** backend/server.js, the axltest.dev revision that checks the issued
    challenge and has all four routes *)

Module Dev.

(** [POST /generate-registration-options]: the library is called with the
    four mandatory options only, and an options object without a challenge
    is turned into a thrown error. *)
Definition generate_registration_options (lib : Library) (users : gmap string User) (body : ReqBody)
  : gmap string User * Reply :=
  match truthy_val (email body) with
  | None => (users, sendError 400 "Email requerido")
  | Some e =>
      let userId := uuidv4 lib in
      match generateRegistrationOptions lib
              {| rpName := "AxlTest App";
                 rpID := "axltest.dev";
                 userID := userId;
                 userName := e;
                 userDisplayName := None;
                 reg_timeout := None;
                 attestationType := None;
                 excludeCredentials := [];
                 authenticatorSelection := None;
                 supportedAlgorithmIDs := [] |} with
      | Threw msg => (users, sendError 500 ("Error interno: " ++ msg))
      | Returned options =>
          if negb (truthy (challenge options))
          then (users,
                sendError 500
                  ("Error interno: " ++
                   "La librería WebAuthn devolvió objeto vacío - verificar configuración"))
          else
            (<[e := {| user_id := userId;
                       user_email := e;
                       devices := [];
                       currentChallenge := challenge options |}]> users,
             res_json (JOptions options))
      end
  end.

Definition verify_registration : Handler :=
  verify_registration "https://axltest.dev" "axltest.dev".

Definition verify_authentication : Handler :=
  verify_authentication "https://axltest.dev" "axltest.dev".

(** [POST /generate-authentication-options]. *)
Definition generate_authentication_options (lib : Library) (users : gmap string User) (body : ReqBody)
  : gmap string User * Reply :=
  match truthy_val (email body) with
  | None => (users, sendError 400 "Email requerido")
  | Some e =>
      match users !! e with
      | None => (users, sendError 404 "Usuario no registrado")
      | Some user =>
          if Nat.eqb (length (devices user)) 0
          then (users, sendError 404 "Usuario no registrado")
          else
            match generateAuthenticationOptions lib
                    {| auth_timeout := Some 60000%N;
                       auth_userVerification := Some "required";
                       allowCredentials := descriptors [] (devices user);
                       auth_rpID := "axltest.dev" |} with
            | Threw _ => (users, sendError 500 "Error al generar desafío")
            | Returned options =>
                (<[e := {| user_id := user_id user;
                           user_email := user_email user;
                           devices := devices user;
                           currentChallenge := challenge options |}]> users,
                 res_json (JOptions options))
            end
      end
  end.

(** The routes in the order the file registers them. *)
Definition routes : list Route :=
  [ {| route_method := POST; route_path := "/generate-registration-options";
       route_handler := generate_registration_options |};
    {| route_method := POST; route_path := "/verify-registration";
       route_handler := verify_registration |};
    {| route_method := POST; route_path := "/verify-authentication";
       route_handler := verify_authentication |};
    {| route_method := POST; route_path := "/generate-authentication-options";
       route_handler := generate_authentication_options |};
    {| route_method := GET; route_path := "/api/health";
       route_handler := health |} ].

End Dev.

(** ** backend/server.js, the axltest.lat revision with a catch-all 404 *)

Module Lat404.

(** [POST /generate-registration-options]: the text of the axltest.lat
    revision (the two files differ in what they log). *)
Definition generate_registration_options : Handler := Lat.generate_registration_options.

(** [POST /verify-registration]. *)
Definition verify_registration (lib : Library) (users : gmap string User) (body : ReqBody)
  : gmap string User * Reply :=
  match truthy_val (email body), response body with
  | Some e, Some r =>
      match users !! e with
      | None => (users, sendError 404 "Usuario no encontrado")
      | Some user =>
          match truthy_val (currentChallenge user) with
          | None => (users, sendError 400 "No hay desafío pendiente para este usuario")
          | Some expectedChallenge =>
              match verifyRegistrationResponse lib
                      {| vr_response := r;
                         vr_expectedChallenge := expectedChallenge;
                         vr_expectedOrigin := "https://axltest.lat";
                         vr_expectedRPID := "axltest.lat";
                         vr_requireUserVerification := true |} with
              | Threw _ => (users, sendError 500 "Error al verificar registro")
              | Returned verification =>
                  match rv_verified verification, registrationInfo verification with
                  | true, Some info =>
                      let user' :=
                        {| user_id := user_id user;
                           user_email := user_email user;
                           devices := devices user ++
                             [ {| credentialID := ri_credentialID info;
                                  credentialPublicKey := ri_credentialPublicKey info;
                                  counter := ri_counter info |} ];
                           currentChallenge := None |} in
                      (<[e := user']> users, res_json JVerified)
                  | _, _ => (users, sendError 400 "Verificación fallida")
                  end
              end
          end
      end
  | _, _ => (users, sendError 400 "Email y respuesta son requeridos")
  end.

(** [POST /generate-authentication-options]. *)
Definition generate_authentication_options (lib : Library) (users : gmap string User) (body : ReqBody)
  : gmap string User * Reply :=
  match truthy_val (email body) with
  | None => (users, sendError 400 "Email requerido")
  | Some e =>
      match users !! e with
      | None => (users, sendError 404 "Usuario no registrado o sin dispositivos")
      | Some user =>
          if Nat.eqb (length (devices user)) 0
          then (users, sendError 404 "Usuario no registrado o sin dispositivos")
          else
            match generateAuthenticationOptions lib
                    {| auth_timeout := Some 60000%N;
                       auth_userVerification := Some "required";
                       allowCredentials := descriptors [] (devices user);
                       auth_rpID := "axltest.lat" |} with
            | Threw _ => (users, sendError 500 "Error al generar desafío de autenticación")
            | Returned options =>
                (<[e := {| user_id := user_id user;
                           user_email := user_email user;
                           devices := devices user;
                           currentChallenge := challenge options |}]> users,
                 res_json (JOptions options))
            end
      end
  end.

(** [POST /verify-authentication]. *)
Definition verify_authentication (lib : Library) (users : gmap string User) (body : ReqBody)
  : gmap string User * Reply :=
  match truthy_val (email body), response body with
  | Some e, Some r =>
      match users !! e with
      | None => (users, sendError 404 "Usuario no encontrado")
      | Some user =>
          match truthy_val (currentChallenge user) with
          | None => (users, sendError 400 "No hay desafío pendiente")
          | Some expectedChallenge =>
              match find_first (same_credential r) (devices user) with
              | None => (users, sendError 400 "Dispositivo desconocido")
              | Some (i, device) =>
                  match verifyAuthenticationResponse lib
                          {| va_response := r;
                             va_expectedChallenge := expectedChallenge;
                             va_expectedOrigin := "https://axltest.lat";
                             va_expectedRPID := "axltest.lat";
                             va_authenticator :=
                               {| credentialID := credentialID device;
                                  credentialPublicKey := credentialPublicKey device;
                                  counter := counter device |};
                             va_requireUserVerification := true |} with
                  | Threw _ => (users, sendError 500 "Error al verificar autenticación")
                  | Returned verification =>
                      if av_verified verification then
                        match authenticationInfo verification with
                        | None => (users, sendError 500 "Error al verificar autenticación")
                        | Some info =>
                            let user' :=
                              {| user_id := user_id user;
                                 user_email := user_email user;
                                 devices := <[i := set_counter (newCounter info) device]> (devices user);
                                 currentChallenge := None |} in
                            (<[e := user']> users, res_json (JVerifiedUser (Some e)))
                        end
                      else (users, sendError 400 "Autenticación fallida")
                  end
              end
          end
      end
  | _, _ => (users, sendError 400 "Email y respuesta son requeridos")
  end.

(** The routes in the order the file registers them. *)
Definition routes : list Route :=
  [ {| route_method := POST; route_path := "/generate-registration-options";
       route_handler := generate_registration_options |};
    {| route_method := POST; route_path := "/verify-registration";
       route_handler := verify_registration |};
    {| route_method := POST; route_path := "/generate-authentication-options";
       route_handler := generate_authentication_options |};
    {| route_method := POST; route_path := "/verify-authentication";
       route_handler := verify_authentication |} ].


End Lat404.

(** ** Runs of the server *)

(** One request as the server sees it, with the behaviour of the library
    while it is handled. *)
Record Request := {
  req_lib : Library;
  req_method : Method;
  req_url : string;
  req_body : ReqBody;
}.

(** The store a request leaves: the handler's, or the old one when the
    request reaches no handler. *)
Definition store_after (routes : list Route) (users : gmap string User) (req : Request)
  : gmap string User :=
  match serve routes (req_lib req) users (req_method req) (req_url req) (req_body req) with
  | Handled users' _ => users'
  | Unrouted => users
  end.

(** The process starts from [users = new Map()] and handles the requests
    one after the other. *)
Definition run (routes : list Route) (reqs : list Request) : gmap string User :=
  fold_left (store_after routes) reqs ∅.

(** ** Invariants of the store *)


(** An identity with devices has exactly one and no pending challenge. *)
Definition one_device_and_idle (users : gmap string User) : Prop :=
  map_Forall (fun _ user =>
                devices user = []
                \/ (currentChallenge user = None /\ length (devices user) = 1)) users.

(** What identifies a stored credential: its id and its public key. *)
Definition credential_keys (users : gmap string User) (e : string) : list (string * string) :=
  map (fun d => (credentialID d, credentialPublicKey d)) (credentials_of users e).

(** A request that is answered with a failure leaves the store alone. *)
Definition failures_change_nothing (routes : list Route) : Prop :=
  forall lib users m path body users' reply,
    serve routes lib users m path body = Handled users' reply ->
    status reply <> 200 -> users' = users.

(** No request removes an identity, and only a registration start adds one. *)
Definition identities_only_grow (routes : list Route) : Prop :=
  forall lib users m path body users' reply,
    serve routes lib users m path body = Handled users' reply ->
    dom users ⊆ dom users'
    /\ (path <> "/generate-registration-options" -> dom users' = dom users).

(** Every request keeps an invariant of the store. *)
Definition preserved_by (routes : list Route) (inv : gmap string User -> Prop) : Prop :=
  forall lib users m path body users' reply,
    inv users ->
    serve routes lib users m path body = Handled users' reply ->
    inv users'.



(** The arguments the current file hands to [generateRegistrationOptions]. *)
Definition ServerJs_registration_options_args (userId e : string) : RegistrationOptionsArgs :=
  {| rpName := "AxlTest App";
     rpID := "axltest.dev";
     userID := userId;
     userName := e;
     userDisplayName := Some e;
     reg_timeout := Some 60000%N;
     attestationType := Some "none";
     excludeCredentials := [];
     authenticatorSelection :=
       Some {| authenticatorAttachment := None;
               userVerification := Some "preferred";
               residentKey := Some "preferred";
               requireResidentKey := None |};
     supportedAlgorithmIDs := [(-7)%Z; (-257)%Z] |}.



(** ** frontend/src/App.jsx: the email check *)

From Stdlib Require Import Ascii DecimalString.

(** The code points of the white space and line terminator characters:
    what [\s] matches in a regular expression and what [trim] removes. *)
Definition white_space_code (n : N) : bool :=
  ((9 <=? n) && (n <=? 13) || (n =? 32) || (n =? 160) || (n =? 5760)
   || (8192 <=? n) && (n <=? 8202) || (n =? 8232) || (n =? 8233)
   || (n =? 8239) || (n =? 8287) || (n =? 12288) || (n =? 65279))%N.

(** The same on a character of a [string], read as its code unit. *)
Definition is_white_space (c : ascii) : bool := white_space_code (N_of_ascii c).

(** Regular expressions, as far as the pattern of [isValidEmail] and its
    derivatives need them. *)
Inductive regex :=
| RNone                              (* matches nothing *)
| REps                               (* matches the empty string *)
| RClass (cls : ascii -> bool)       (* one character of a class *)
| RCat (r1 r2 : regex)
| RAlt (r1 r2 : regex)
| RStar (r : regex).

(** [r+]. *)
Definition RPlus (r : regex) : regex := RCat r (RStar r).

Fixpoint nullable (r : regex) : bool :=
  match r with
  | RNone => false
  | REps => true
  | RClass _ => false
  | RCat r1 r2 => nullable r1 && nullable r2
  | RAlt r1 r2 => nullable r1 || nullable r2
  | RStar _ => true
  end.

(** What is left of [r] to match after the character [c]. *)
Fixpoint deriv (c : ascii) (r : regex) : regex :=
  match r with
  | RNone => RNone
  | REps => RNone
  | RClass cls => if cls c then REps else RNone
  | RCat r1 r2 =>
      if nullable r1
      then RAlt (RCat (deriv c r1) r2) (deriv c r2)
      else RCat (deriv c r1) r2
  | RAlt r1 r2 => RAlt (deriv c r1) (deriv c r2)
  | RStar r1 => RCat (deriv c r1) (RStar r1)
  end.

(** [/^r$/.test(s)]: the whole of [s] matches [r]. *)
Fixpoint regex_test (r : regex) (s : string) : bool :=
  match s with
  | EmptyString => nullable r
  | String c s' => regex_test (deriv c r) s'
  end.

(** The strings a regular expression matches. *)
Inductive matches : regex -> string -> Prop :=
| matches_eps : matches REps ""
| matches_class cls c : cls c = true -> matches (RClass cls) (String c "")
| matches_cat r1 r2 s1 s2 : matches r1 s1 -> matches r2 s2 -> matches (RCat r1 r2) (s1 ++ s2)
| matches_alt_l r1 r2 s : matches r1 s -> matches (RAlt r1 r2) s
| matches_alt_r r1 r2 s : matches r2 s -> matches (RAlt r1 r2) s
| matches_star_nil r : matches (RStar r) ""
| matches_star_cons r s1 s2 :
    matches r s1 -> matches (RStar r) s2 -> matches (RStar r) (s1 ++ s2).

(** ** frontend/src/App.jsx: what an event handler does

    An [async] handler of the component is the sequence of its effects up
    to its return: the statuses it sets, the requests it sends and the
    prompts it opens, each [await] continuing with what the browser gives
    back.  A rejected promise or a thrown error continues in the handler's
    [catch] block. *)

(** What [fetch] resolves to: [response.ok], [response.status], and what
    [response.text()] and [response.json()] give ([json()] rejects when the
    body is not JSON). *)
Record FetchResponse := {
  fr_ok : bool;
  fr_status : nat;
  fr_text : string;
  fr_json : Outcome Json;
}.

Inductive Action :=
| Finish
| SetStatus (text : string) (next : Action)
| Fetch (url : string) (body : ReqBody) (next : Outcome FetchResponse -> Action)
| StartRegistration (options : Json) (next : Outcome Response -> Action)
| StartAuthentication (options : Json) (next : Outcome Response -> Action).

(** The properties the handlers read off a parsed reply; an absent
    property is [undefined]. *)
Definition json_challenge (j : Json) : option string :=
  match j with
  | JOptions o => challenge o
  | _ => None
  end.

Definition json_verified (j : Json) : bool :=
  match j with
  | JVerified | JVerifiedUser _ => true
  | _ => false
  end.

Definition json_error (j : Json) : option string :=
  match j with
  | JError message => Some message
  | _ => None
  end.

(** [v || fallback] on a string or [undefined]. *)
Definition or_else (v : option string) (fallback : string) : string :=
  match truthy_val v with
  | Some s => s
  | None => fallback
  end.

Module Front.

(** [[^\s@]]. *)
Definition name_char (c : ascii) : bool :=
  negb (is_white_space c) && negb (Ascii.eqb c "@"%char).

Definition is_at (c : ascii) : bool := Ascii.eqb c "@"%char.
Definition is_dot (c : ascii) : bool := Ascii.eqb c "."%char.

(** [/^[^\s@]+@[^\s@]+\.[^\s@]+$/]. *)
Definition email_pattern : regex :=
  RCat (RPlus (RClass name_char))
    (RCat (RClass is_at)
       (RCat (RPlus (RClass name_char))
          (RCat (RClass is_dot)
             (RPlus (RClass name_char))))).

(** [isValidEmail]. *)
Definition isValidEmail (str : string) : bool :=
  regex_test email_pattern str.

(** [str.trimStart()], [str.trimEnd()] and [str.trim()]. *)
Fixpoint trimStart (str : string) : string :=
  match str with
  | EmptyString => EmptyString
  | String c str' => if is_white_space c then trimStart str' else str
  end.

Fixpoint trimEnd (str : string) : string :=
  match str with
  | EmptyString => EmptyString
  | String c str' =>
      match trimEnd str' with
      | EmptyString => if is_white_space c then EmptyString else String c EmptyString
      | rest => String c rest
      end
  end.

Definition trim (str : string) : string := trimEnd (trimStart str).

(** The guard that opens [registerWebAuthn] and [loginWebAuthn]: the
    trimmed email when it passes, nothing when the handler stops with
    "Por favor ingresa un email válido". *)
Definition cleanEmail (email : string) : option string :=
  let clean := trim email in
  if negb (truthy (Some clean)) || negb (isValidEmail clean)
  then None
  else Some clean.

(** The double-quote character, around the word challenge in two error
    messages. *)
Definition double_quote : string := String (ascii_of_nat 34) EmptyString.

(** The [catch] block of both handlers. *)
Definition caught (message : string) : Action :=
  SetStatus ("🚨 ERROR: " ++ or_else (Some message) "Desconocido") Finish.

(** The message of the error thrown for a reply that is not [ok]. *)
Definition http_error (response : FetchResponse) : string :=
  "HTTP " ++ NilZero.string_of_uint (Nat.to_uint (fr_status response)) ++ ": "
  ++ String.substring 0 100 (fr_text response).

(** [registerWebAuthn]. *)
Definition registerWebAuthn (email : string) : Action :=
  match cleanEmail email with
  | None => SetStatus "❌ Por favor ingresa un email válido" Finish
  | Some clean =>
      SetStatus "1️⃣ Generando opciones de registro..."
        (Fetch "/generate-registration-options" {| email := Some clean; response := None |}
           (fun fetched =>
              match fetched with
              | Threw message => caught message
              | Returned response =>
                  if negb (fr_ok response) then caught (http_error response)
                  else
                    match fr_json response with
                    | Threw message => caught message
                    | Returned regOptions =>
                        if negb (truthy (json_challenge regOptions))
                        then caught ("La respuesta no contiene " ++ double_quote
                                     ++ "challenge" ++ double_quote)
                        else
                          SetStatus "2️⃣ Esperando autenticación biométrica..."
                            (StartRegistration regOptions
                               (fun started =>
                                  match started with
                                  | Threw message => caught message
                                  | Returned regResponse =>
                                      SetStatus "3️⃣ Verificando registro..."
                                        (Fetch "/verify-registration"
                                           {| email := Some clean; response := Some regResponse |}
                                           (fun fetched' =>
                                              match fetched' with
                                              | Threw message => caught message
                                              | Returned response' =>
                                                  match fr_json response' with
                                                  | Threw message => caught message
                                                  | Returned verifyRes =>
                                                      if json_verified verifyRes
                                                      then SetStatus "✅ Registro biométrico exitoso!" Finish
                                                      else SetStatus "❌ Verificación fallida" Finish
                                                  end
                                              end))
                                  end))
                    end
              end))
  end.

(** [loginWebAuthn]. *)
Definition loginWebAuthn (email : string) : Action :=
  match cleanEmail email with
  | None => SetStatus "❌ Por favor ingresa un email válido" Finish
  | Some clean =>
      SetStatus "1️⃣ Generando desafío de autenticación..."
        (Fetch "/generate-authentication-options" {| email := Some clean; response := None |}
           (fun fetched =>
              match fetched with
              | Threw message => caught message
              | Returned response =>
                  if negb (fr_ok response) then caught (http_error response)
                  else
                    match fr_json response with
                    | Threw message => caught message
                    | Returned authOptions =>
                        if negb (truthy (json_challenge authOptions))
                        then caught ("Respuesta sin " ++ double_quote
                                     ++ "challenge" ++ double_quote)
                        else
                          SetStatus "2️⃣ Esperando autenticación biométrica..."
                            (StartAuthentication authOptions
                               (fun started =>
                                  match started with
                                  | Threw message => caught message
                                  | Returned authResponse =>
                                      SetStatus "3️⃣ Verificando..."
                                        (Fetch "/verify-authentication"
                                           {| email := Some clean; response := Some authResponse |}
                                           (fun fetched' =>
                                              match fetched' with
                                              | Threw message => caught message
                                              | Returned verifyResponse =>
                                                  match fr_json verifyResponse with
                                                  | Threw message => caught message
                                                  | Returned verifyRes =>
                                                      if json_verified verifyRes
                                                      then SetStatus ("✅ Bienvenido, " ++ clean ++ "!") Finish
                                                      else SetStatus ("❌ Autenticación fallida: "
                                                                      ++ or_else (json_error verifyRes)
                                                                           "Razón desconocida") Finish
                                                  end
                                              end))
                                  end))
                    end
              end))
  end.

End Front.

(** ** The earlier App.jsx

    Its [registerWebAuthn] and [loginPassword] do what the current ones do;
    its [loginWebAuthn] has no guard and uses the email as it was typed. *)

Module FrontOld.

(** [loginWebAuthn]. *)
Definition loginWebAuthn (email : string) : Action :=
  SetStatus "1️⃣ Generando desafío de autenticación..."
    (Fetch "/generate-authentication-options" {| email := Some email; response := None |}
       (fun fetched =>
          match fetched with
          | Threw message => Front.caught message
          | Returned response =>
              if negb (fr_ok response) then Front.caught (Front.http_error response)
              else
                match fr_json response with
                | Threw message => Front.caught message
                | Returned authOptions =>
                    if negb (truthy (json_challenge authOptions))
                    then Front.caught ("Respuesta sin " ++ Front.double_quote
                                       ++ "challenge" ++ Front.double_quote)
                    else
                      SetStatus "2️⃣ Esperando autenticación biométrica..."
                        (StartAuthentication authOptions
                           (fun started =>
                              match started with
                              | Threw message => Front.caught message
                              | Returned authResponse =>
                                  SetStatus "3️⃣ Verificando..."
                                    (Fetch "/verify-authentication"
                                       {| email := Some email; response := Some authResponse |}
                                       (fun fetched' =>
                                          match fetched' with
                                          | Threw message => Front.caught message
                                          | Returned verifyResponse =>
                                              match fr_json verifyResponse with
                                              | Threw message => Front.caught message
                                              | Returned verifyRes =>
                                                  if json_verified verifyRes
                                                  then SetStatus ("✅ Bienvenido, " ++ email ++ "!") Finish
                                                  else SetStatus "❌ Autenticación fallida" Finish
                                              end
                                          end))
                              end))
                end
          end)).

End FrontOld.

(** ** The front end against a server *)

(** The surroundings of a handler run: the server's routes, the library's
    behaviour during the n-th request, what the framework answers when no
    route matches, how a reply body is written out, and what the
    authenticator answers to the two prompts. *)
Record World := {
  w_routes : list Route;
  w_library : nat -> Library;
  w_unrouted : FetchResponse;
  w_stringify : Json -> string;
  w_create : Json -> Outcome Response;
  w_get : Json -> Outcome Response;
}.

(** The reply of the server as [fetch] presents it. *)
Definition http_response (w : World) (served : Served) : FetchResponse :=
  match served with
  | Handled _ reply =>
      {| fr_ok := Nat.leb 200 (status reply) && Nat.leb (status reply) 299;
         fr_status := status reply;
         fr_text := w_stringify w (json reply);
         fr_json := Returned (json reply) |}
  | Unrouted => w_unrouted w
  end.

(** Runs a handler: [n] requests have been sent before, [users] is the
    server's store.  Gives the store afterwards and the statuses set, in
    order. *)
Fixpoint perform (w : World) (a : Action) (n : nat) (users : gmap string User)
  : gmap string User * list string :=
  match a with
  | Finish => (users, [])
  | SetStatus text next =>
      let '(users', shown) := perform w next n users in (users', text :: shown)
  | Fetch url body next =>
      let served := serve (w_routes w) (w_library w n) users POST url body in
      perform w (next (Returned (http_response w served))) (S n)
        match served with
        | Handled users' _ => users'
        | Unrouted => users
        end
  | StartRegistration options next => perform w (next (w_create w options)) n users
  | StartAuthentication options next => perform w (next (w_get w options)) n users
  end.

(** A non-empty run of characters that are neither white space nor "@". *)
Definition name_part (s : string) : Prop :=
  s <> "" /\ forallb Front.name_char (String.list_ascii_of_string s) = true.

(** A string made of white space only. *)
Definition blank (s : string) : Prop :=
  forallb is_white_space (String.list_ascii_of_string s) = true.

(** How often a character occurs in a string. *)
Fixpoint occurrences (c : ascii) (s : string) : nat :=
  match s with
  | EmptyString => 0
  | String c' s' => (if Ascii.eqb c' c then 1 else 0) + occurrences c s'
  end.

(** A world to run the handlers in: the framework answers an unknown route
    with a 404 that is not JSON, and the authenticator answers a prompt over
    the challenge of the options it is shown, with the credential "cred-1"
    and the counter [n]. *)
Definition authenticator (kind : string) (n : N) (options : Json) : Outcome Response :=
  match json_challenge options with
  | Some c => Returned {| resp_id := "cred-1"; resp_type := kind;
                          resp_challenge := c; resp_counter := n |}
  | None => Threw "NotAllowedError"
  end.

Definition world (routes : list Route) (lib : nat -> Library) (n : N) : World :=
  {| w_routes := routes;
     w_library := lib;
     w_unrouted := {| fr_ok := false; fr_status := 404;
                      fr_text := "Cannot POST"; fr_json := Threw "Unexpected token" |};
     w_stringify := fun _ => "{}";
     w_create := authenticator "webauthn.create" n;
     w_get := authenticator "webauthn.get" n |}.



(** * Properties *)

(** ** The password fallback *)

(** C10: for every email and every entered password, [loginPassword] reports
    success (the welcome status for that email) if and only if the password
    is the literal "123456"; the email plays no part in the decision, so
    that password succeeds for every email and no other does for any. *)
Theorem loginPassword_success_iff (email password : string) :
  App.loginPassword email password = App.welcome email <-> password = "123456".
Proof.
  unfold App.loginPassword, App.welcome.
  destruct (String.eqb_spec password "123456") as [-> | Hne]; split; intro H.
  - reflexivity.
  - reflexivity.
  - exfalso. simpl in H. discriminate H.
  - contradiction.
Qed.

(** ** Routing *)

(** C9 (the current file misses a route): in the axltest.lat revision the
    POST routes are exactly the four ceremony operations, each served by its
    handler.  The current [backend/server.js] registers three of them: a
    POST to [/generate-authentication-options] reaches no handler, although
    the file's own [apiRoutes] list names that path and its production
    fallback hands the request on as one for an API route. *)
Theorem begin_authentication_unrouted_in_current_file :
  (post_paths Lat.routes
   = [ "/generate-registration-options"; "/verify-registration";
       "/generate-authentication-options"; "/verify-authentication" ]
   /\ dispatch Lat.routes POST "/generate-registration-options" = Some Lat.generate_registration_options
   /\ dispatch Lat.routes POST "/verify-registration" = Some Lat.verify_registration
   /\ dispatch Lat.routes POST "/generate-authentication-options" = Some Lat.generate_authentication_options
   /\ dispatch Lat.routes POST "/verify-authentication" = Some Lat.verify_authentication)
  /\ (post_paths ServerJs.routes
      = [ "/verify-registration"; "/generate-registration-options"; "/verify-authentication" ]
      /\ dispatch ServerJs.routes POST "/generate-registration-options" = Some ServerJs.generate_registration_options
      /\ dispatch ServerJs.routes POST "/verify-registration" = Some ServerJs.verify_registration
      /\ dispatch ServerJs.routes POST "/verify-authentication" = Some ServerJs.verify_authentication)
  /\ In "/generate-authentication-options" ServerJs.apiRoutes
  /\ ServerJs.fallback_passes "/generate-authentication-options" = true
  /\ routed ServerJs.routes POST "/generate-authentication-options" = false
  /\ (forall lib users body,
        serve ServerJs.routes lib users POST "/generate-authentication-options" body = Unrouted).
Proof.
  repeat split; try reflexivity.
  simpl. tauto.
Qed.

(** ** What the handlers do, case by case *)

Lemma truthy_val_Some v s : truthy_val v = Some s <-> v = Some s /\ s <> "".
Proof.
  unfold truthy_val, truthy.
  destruct v as [t|]; [|split; [discriminate | intros [? _]; discriminate]].
  destruct (String.eqb_spec t ""); simpl; split.
  - discriminate.
  - intros [[= ->] ?]. contradiction.
  - intros [= ->]. auto.
  - intros [[= ->] _]. reflexivity.
Qed.

Lemma truthy_val_of_Some s : s <> "" -> truthy_val (Some s) = Some s.
Proof. intros H. apply truthy_val_Some. auto. Qed.

Lemma find_first_lookup {A} (pred : A -> bool) l i x :
  find_first pred l = Some (i, x) -> l !! i = Some x /\ pred x = true.
Proof.
  revert i. induction l as [|y l IH]; intros i; simpl; [discriminate|].
  destruct (pred y) eqn:Hy.
  - intros [= <- <-]. auto.
  - destruct (find_first pred l) as [[j z]|]; [|discriminate].
    intros [= <- <-]. simpl. apply IH. reflexivity.
Qed.

(** Replacing the element found by one that still satisfies the predicate
    leaves it the element found. *)
Lemma find_first_insert {A} (pred : A -> bool) l i x x' :
  find_first pred l = Some (i, x) -> pred x' = true ->
  find_first pred (<[i := x']> l) = Some (i, x').
Proof.
  revert i. induction l as [|y l IH]; intros i; simpl; [discriminate|].
  destruct (pred y) eqn:Hy.
  - intros [= <- <-] Hx'. simpl. rewrite Hx'. reflexivity.
  - destruct (find_first pred l) as [[j z]|] eqn:Hf; [|discriminate].
    intros [= <- <-] Hx'. simpl. rewrite Hy, (IH j); auto.
Qed.

Lemma same_credential_set_counter r n d :
  same_credential r (set_counter n d) = same_credential r d.
Proof. reflexivity. Qed.

Ltac failure_reply :=
  right; eexists; split; [|reflexivity]; set_solver.

Lemma verify_registration_cases origin rpid lib users body :
  (exists e r user c v info,
      email body = Some e /\ e <> "" /\ response body = Some r
      /\ users !! e = Some user /\ currentChallenge user = Some c /\ c <> ""
      /\ verifyRegistrationResponse lib (registration_args origin rpid r c) = Returned v
      /\ rv_verified v = true /\ registrationInfo v = Some info
      /\ verify_registration origin rpid lib users body =
           (<[e := {| user_id := user_id user; user_email := user_email user;
                      devices := devices user ++ [device_of info];
                      currentChallenge := None |}]> users,
            res_json JVerified))
  \/ (exists reply, reply ∈ registration_failures
        /\ verify_registration origin rpid lib users body = (users, reply)).
Proof.
  unfold verify_registration, registration_failures, registration_args.
  destruct (truthy_val (email body)) as [e|] eqn:He; [|failure_reply].
  apply truthy_val_Some in He as [He Hne].
  destruct (response body) as [r|] eqn:Hr; [|failure_reply].
  destruct (users !! e) as [user|] eqn:Hu; [|failure_reply].
  destruct (truthy_val (currentChallenge user)) as [c|] eqn:Hc; [|failure_reply].
  apply truthy_val_Some in Hc as [Hc Hcne].
  destruct (verifyRegistrationResponse lib _) as [v|msg] eqn:Hv; [|failure_reply].
  destruct (rv_verified v) eqn:Hver; [|failure_reply].
  destruct (registrationInfo v) as [info|] eqn:Hi; [|failure_reply].
  left. exists e, r, user, c, v, info. repeat split; auto.
Qed.

Lemma verify_authentication_cases origin rpid lib users body :
  (exists e r user c i device m,
      email body = Some e /\ e <> "" /\ response body = Some r
      /\ users !! e = Some user /\ currentChallenge user = Some c /\ c <> ""
      /\ find_first (same_credential r) (devices user) = Some (i, device)
      /\ accepted (verifyAuthenticationResponse lib (authentication_args origin rpid r c device)) = Some m
      /\ verify_authentication origin rpid lib users body =
           (<[e := {| user_id := user_id user; user_email := user_email user;
                      devices := <[i := set_counter m device]> (devices user);
                      currentChallenge := None |}]> users,
            res_json (JVerifiedUser (Some e))))
  \/ (exists reply, reply ∈ authentication_failures
        /\ verify_authentication origin rpid lib users body = (users, reply)).
Proof.
  unfold verify_authentication, authentication_failures, authentication_args, accepted.
  destruct (truthy_val (email body)) as [e|] eqn:He; [|failure_reply].
  apply truthy_val_Some in He as [He Hne].
  destruct (response body) as [r|] eqn:Hr; [|failure_reply].
  destruct (users !! e) as [user|] eqn:Hu; [|failure_reply].
  destruct (truthy_val (currentChallenge user)) as [c|] eqn:Hc; [|failure_reply].
  apply truthy_val_Some in Hc as [Hc Hcne].
  destruct (find_first _ (devices user)) as [[i device]|] eqn:Hf; [|failure_reply].
  destruct (verifyAuthenticationResponse lib _) as [v|msg] eqn:Hv; [|failure_reply].
  destruct (av_verified v) eqn:Hver; [|failure_reply].
  destruct (authenticationInfo v) as [info|] eqn:Hi; [|failure_reply].
  left. exists e, r, user, c, i, device, (newCounter info).
  repeat split; auto.
  rewrite Hv, Hver, Hi. reflexivity.
Qed.

Lemma failure_status_registration reply :
  reply ∈ registration_failures -> status reply <> 200.
Proof.
  unfold registration_failures. rewrite !elem_of_cons, elem_of_nil.
  intros [->|[->|[->|[->|[->|[]]]]]]; discriminate.
Qed.




(** ** The pending challenge *)



(** ** The signature counter *)

Lemma authentication_accepted origin rpid lib users e r user c i device m :
  e <> "" -> users !! e = Some user ->
  currentChallenge user = Some c -> c <> "" ->
  find_first (same_credential r) (devices user) = Some (i, device) ->
  accepted (verifyAuthenticationResponse lib (authentication_args origin rpid r c device)) = Some m ->
  verify_authentication origin rpid lib users (request e (Some r))
  = (<[e := {| user_id := user_id user; user_email := user_email user;
               devices := <[i := set_counter m device]> (devices user);
               currentChallenge := None |}]> users,
     res_json (JVerifiedUser (Some e))).
Proof.
  intros He Hu Hc Hcne Hf Hacc.
  unfold verify_authentication, request. simpl.
  rewrite (truthy_val_of_Some e He), Hu, Hc, (truthy_val_of_Some c Hcne), Hf.
  unfold accepted, authentication_args in Hacc.
  destruct (verifyAuthenticationResponse lib _) as [v|]; [|discriminate].
  destruct (av_verified v); [|discriminate].
  destruct (authenticationInfo v) as [info|]; [|discriminate].
  simpl in Hacc. injection Hacc as <-. reflexivity.
Qed.

Lemma authentication_refused origin rpid lib users e r user c i device :
  e <> "" -> users !! e = Some user ->
  currentChallenge user = Some c -> c <> "" ->
  find_first (same_credential r) (devices user) = Some (i, device) ->
  accepted (verifyAuthenticationResponse lib (authentication_args origin rpid r c device)) = None ->
  exists reply,
    (reply = sendError 500 "Error al verificar autenticación"
     \/ reply = sendError 400 "Autenticación fallida")
    /\ verify_authentication origin rpid lib users (request e (Some r)) = (users, reply).
Proof.
  intros He Hu Hc Hcne Hf Hacc.
  unfold verify_authentication, request. simpl.
  rewrite (truthy_val_of_Some e He), Hu, Hc, (truthy_val_of_Some c Hcne), Hf.
  unfold accepted, authentication_args in Hacc.
  destruct (verifyAuthenticationResponse lib _) as [v|]; [|eauto].
  destruct (av_verified v); [|eauto].
  destruct (authenticationInfo v) as [info|]; [discriminate|eauto].
Qed.


Lemma stored_counter_after users e r user i device m c :
  find_first (same_credential r) (devices user) = Some (i, device) ->
  stored_counter
    (<[e := {| user_id := user_id user; user_email := user_email user;
               devices := <[i := set_counter m device]> (devices user);
               currentChallenge := c |}]> users) e r = Some m.
Proof.
  intros Hf. unfold stored_counter. rewrite lookup_insert_eq. simpl.
  rewrite (find_first_insert _ _ _ _ (set_counter m device) Hf).
  - reflexivity.
  - rewrite same_credential_set_counter. by apply find_first_lookup in Hf as [_ ?].
Qed.




(** What the verifier's own counter test buys: with a verifier that
    enforces the counter order, an authentication against a credential
    whose stored counter is positive either succeeds and stores a strictly
    greater counter, or fails generically and changes nothing. *)
Lemma stored_counter_grows_with_guarding_verifier origin rpid lib users e r user c i device :
  guards_counter lib ->
  e <> "" -> users !! e = Some user ->
  currentChallenge user = Some c -> c <> "" ->
  find_first (same_credential r) (devices user) = Some (i, device) ->
  (0 < counter device)%N ->
  let '(users', reply) := verify_authentication origin rpid lib users (request e (Some r)) in
  (reply = res_json (JVerifiedUser (Some e))
   /\ exists m, stored_counter users' e r = Some m /\ (counter device < m)%N)
  \/ ((reply = sendError 500 "Error al verificar autenticación"
       \/ reply = sendError 400 "Autenticación fallida")
      /\ users' = users).
Proof.
  intros Hguard He Hu Hc Hcne Hf Hpos.
  destruct (accepted (verifyAuthenticationResponse lib
                        (authentication_args origin rpid r c device))) as [m|] eqn:Hacc.
  - rewrite (authentication_accepted _ _ _ _ _ _ _ _ _ _ _ He Hu Hc Hcne Hf Hacc).
    left. split; [reflexivity|]. exists m. split; [by apply stored_counter_after|].
    apply Hguard in Hacc. simpl in Hacc. lia.
  - destruct (authentication_refused _ _ _ _ _ _ _ _ _ _ He Hu Hc Hcne Hf Hacc)
      as (reply & Hreply & ->).
    right. auto.
Qed.

Lemma checking_library_guards_counter uuid c : guards_counter (checking_library uuid c).
Proof.
  intros a m. simpl. unfold checking_verify_authentication.
  destruct (_ && _); [|discriminate].
  destruct ((_ || _) && _)%bool eqn:Hlow; [discriminate|].
  simpl. intros [= <-].
  apply andb_false_iff in Hlow as [Hzero|Hle].
  - apply orb_false_iff in Hzero as [H1 H2].
    apply N.ltb_ge in H1, H2. lia.
  - apply N.leb_gt in Hle. lia.
Qed.




(** ** The credential store at the start of a registration *)

Lemma credentials_of_insert_same users e user user' :
  users !! e = Some user -> devices user' = devices user ->
  forall k, credentials_of (<[e := user']> users) k = credentials_of users k.
Proof.
  intros Hu Hd k. unfold credentials_of.
  destruct (decide (e = k)) as [<-|Hne].
  - by rewrite lookup_insert_eq, Hu.
  - by rewrite lookup_insert_ne.
Qed.

Lemma credentials_of_insert_fresh users e user' :
  users !! e = None -> devices user' = [] ->
  forall k, credentials_of (<[e := user']> users) k = credentials_of users k.
Proof.
  intros Hu Hd k. unfold credentials_of.
  destruct (decide (e = k)) as [<-|Hne].
  - by rewrite lookup_insert_eq, Hu.
  - by rewrite lookup_insert_ne.
Qed.

(** In the axltest.lat revision the start of a registration changes no
    identity's credentials. *)
Lemma Lat_begin_registration_keeps_credentials lib users body k :
  credentials_of (fst (Lat.generate_registration_options lib users body)) k
  = credentials_of users k.
Proof.
  unfold Lat.generate_registration_options.
  destruct (negb (truthy (email body)) || negb (is_string (email body))); [done|].
  destruct (email body) as [e|]; [|done].
  destruct (generateRegistrationOptions lib _) as [options|]; [|done].
  destruct (users !! e) as [user|] eqn:Hu; simpl.
  - by apply (credentials_of_insert_same users e user).
  - by apply credentials_of_insert_fresh.
Qed.



(** ** Issuing a challenge *)


Lemma ServerJs_begin_registration_issues lib users body users1 o :
  ServerJs.generate_registration_options lib users body = (users1, res_json (JOptions o)) ->
  exists e user1,
    email body = Some e /\ e <> ""
    /\ users1 !! e = Some user1
    /\ currentChallenge user1 = challenge o
    /\ devices user1 = [].
Proof.
  unfold ServerJs.generate_registration_options.
  destruct (truthy_val (email body)) as [e|] eqn:He; [|discriminate].
  apply truthy_val_Some in He as [He Hne].
  destruct (generateRegistrationOptions lib _) as [options|]; [|discriminate].
  intros [= <- <-].
  eexists e, _. split_and!; [done | done | apply lookup_insert_eq | done | done].
Qed.






(** ** Persisting a credential *)




(** ** Superseding a challenge *)

(** What is needed of a route that issues a challenge: after it answers
    with options, their challenge is the identity's pending one. *)
Lemma superseded_challenge_fails (begin : Handler) origin rpid
    lib2 lib users1 body users2 o1 o2 e r :
  (forall lib users body users' o,
      begin lib users body = (users', res_json (JOptions o)) ->
      exists e user', email body = Some e /\ e <> ""
                      /\ users' !! e = Some user' /\ currentChallenge user' = challenge o) ->
  begin lib2 users1 body = (users2, res_json (JOptions o2)) ->
  email body = Some e ->
  binds_challenge lib ->
  pending users2 e = challenge o2
  /\ (Some (resp_challenge r) = challenge o1 -> challenge o1 <> challenge o2 ->
      exists reply, reply ∈ registration_failures
        /\ verify_registration origin rpid lib users2 (request e (Some r)) = (users2, reply))
  /\ (snd (verify_registration origin rpid lib users2 (request e (Some r))) = res_json JVerified ->
      Some (resp_challenge r) = challenge o2).
Proof.
  intros Hissues Hbegin He Hbinds.
  apply Hissues in Hbegin as (e' & user2 & He' & Hne & Hu2 & Hc2).
  rewrite He in He'. injection He' as <-.
  assert (Hok : snd (verify_registration origin rpid lib users2 (request e (Some r)))
                = res_json JVerified -> Some (resp_challenge r) = challenge o2).
  { destruct (verify_registration_cases origin rpid lib users2 (request e (Some r)))
      as [(e' & r' & user & c & v & info & He' & _ & Hr & Hu & Hc & _ & Hv & Hver & _ & _)
         | (reply & Hin & ->)].
    - intros _. simpl in He', Hr. injection He' as <-. injection Hr as <-.
      rewrite Hu2 in Hu. injection Hu as <-.
      rewrite <- Hc2, Hc. f_equal.
      apply (Hbinds _ _ Hv Hver).
    - simpl. intros ->. apply failure_status_registration in Hin.
      exfalso. apply Hin. reflexivity. }
  split_and!.
  - unfold pending. by rewrite Hu2.
  - intros H1 Hdiff.
    destruct (verify_registration_cases origin rpid lib users2 (request e (Some r)))
      as [(? & ? & ? & ? & ? & ? & _ & _ & _ & _ & _ & _ & _ & _ & _ & Heq)
         | (reply & Hin & Heq)].
    + exfalso. apply Hdiff. rewrite <- H1. apply Hok. by rewrite Heq.
    + by exists reply.
  - exact Hok.
Qed.



(** The same holds of the current file. *)
Lemma current_file_supersedes_first_challenge
    lib1 lib2 lib users body users1 users2 o1 o2 e r :
  ServerJs.generate_registration_options lib1 users body = (users1, res_json (JOptions o1)) ->
  ServerJs.generate_registration_options lib2 users1 body = (users2, res_json (JOptions o2)) ->
  email body = Some e ->
  binds_challenge lib ->
  pending users2 e = challenge o2
  /\ (Some (resp_challenge r) = challenge o1 -> challenge o1 <> challenge o2 ->
      exists reply, reply ∈ registration_failures
        /\ ServerJs.verify_registration lib users2 (request e (Some r)) = (users2, reply))
  /\ (snd (ServerJs.verify_registration lib users2 (request e (Some r))) = res_json JVerified ->
      Some (resp_challenge r) = challenge o2).
Proof.
  intros _ Hbegin He Hbinds.
  apply (superseded_challenge_fails ServerJs.generate_registration_options
           "https://axltest.dev" "axltest.dev" lib2 lib users1 body users2 o1 o2 e r);
    [|done..].
  intros lib' users' body' users'' o Hb.
  apply ServerJs_begin_registration_issues in Hb as (e' & user' & ? & ? & ? & ? & _).
  by exists e', user'.
Qed.


(** ** Nothing to authenticate against *)

(** C8 (as amended): asked for authentication options for an identity that
    is unknown and for one that is known but has no device, the axltest.lat
    revision gives the same reply (404 "Usuario no registrado" for a
    non-empty email); the revision for version 8 of the library answers 404
    both times but with two different messages.  Neither run changes the
    store. *)
Theorem unknown_and_deviceless_identities lib lib' (unknown bare : gmap string User) e user :
  unknown !! e = None ->
  bare !! e = Some user -> devices user = [] ->
  (Lat.generate_authentication_options lib unknown (request e None)
   = (unknown, snd (Lat.generate_authentication_options lib' bare (request e None)))
   /\ fst (Lat.generate_authentication_options lib' bare (request e None)) = bare
   /\ (e <> "" ->
       snd (Lat.generate_authentication_options lib unknown (request e None))
       = sendError 404 "Usuario no registrado"))
  /\ V8.generate_authentication_options lib unknown (request e None)
     = (unknown, sendError 404 "Usuario no registrado")
  /\ V8.generate_authentication_options lib' bare (request e None)
     = (bare, sendError 404 "Usuario no tiene dispositivos registrados").
Proof.
  intros Hun Hbare Hdev. split; [|split].
  - unfold Lat.generate_authentication_options, request. simpl.
    destruct (String.eqb_spec e "") as [->|Hne].
    + split_and!; [done | done | by intros []].
    + by rewrite (truthy_val_of_Some e Hne), Hun, Hbare, Hdev.
  - unfold V8.generate_authentication_options, request. simpl. by rewrite Hun.
  - unfold V8.generate_authentication_options, request. simpl.
    rewrite Hbare. simpl. by rewrite Hdev.
Qed.

(** The amended C8 at work: [bob] is unknown to the empty store, and known
    without devices once he has asked for registration options. *)
Lemma unknown_and_deviceless_identities_witness :
  let lib := checking_library "u-1" "c-1" in
  let bare := fst (Lat.generate_registration_options lib ∅ (request bob None)) in
  snd (Lat.generate_authentication_options lib ∅ (request bob None))
  = snd (Lat.generate_authentication_options lib bare (request bob None))
  /\ snd (V8.generate_authentication_options lib ∅ (request bob None))
     = sendError 404 "Usuario no registrado"
  /\ snd (V8.generate_authentication_options lib bare (request bob None))
     = sendError 404 "Usuario no tiene dispositivos registrados".
Proof.
  intros lib bare.
  destruct (unknown_and_deviceless_identities lib lib ∅ bare bob
              {| user_id := "u-1"; user_email := bob; devices := [];
                 currentChallenge := Some "c-1" |})
    as ((H1 & _ & _) & H2 & H3).
  - reflexivity.
  - vm_compute. reflexivity.
  - reflexivity.
  - rewrite H1, H2, H3. auto.
Defined.

(** C8 (as stated) fails in the revision for version 8 of the library:
    asked for authentication options, it tells an unknown [bob] "Usuario no
    registrado" and a [bob] who has asked for registration options but
    holds no device "Usuario no tiene dispositivos registrados". *)
Lemma deviceless_identity_is_told_apart :
  let lib := checking_library "u-1" "c-1" in
  let bare := fst (V8.generate_registration_options lib ∅ (request bob None)) in
  (∅ : gmap string User) !! bob = None
  /\ credentials_of bare bob = []
  /\ bare !! bob <> None
  /\ snd (V8.generate_authentication_options lib ∅ (request bob None))
     = sendError 404 "Usuario no registrado"
  /\ snd (V8.generate_authentication_options lib bare (request bob None))
     = sendError 404 "Usuario no tiene dispositivos registrados"
  /\ snd (V8.generate_authentication_options lib ∅ (request bob None))
     <> snd (V8.generate_authentication_options lib bare (request bob None)).
Proof.
  vm_compute. repeat split; try reflexivity; discriminate.
Qed.

#[local] Set Warnings "-clear-no-such-hyp".

(** * Further properties of the server *)

(** ** From the route table to the handlers *)

Lemma serve_handled routes lib users m path body users' reply :
  serve routes lib users m path body = Handled users' reply ->
  exists r, r ∈ routes /\ route_method r = m /\ route_path r = path
            /\ route_handler r lib users body = (users', reply).
Proof.
  unfold serve.
  destruct (dispatch routes m path) as [h|] eqn:Hd; [|discriminate].
  destruct (h lib users body) as [u rp] eqn:Hh. intros [= <- <-].
  induction routes as [|r routes IH]; simpl in Hd; [discriminate|].
  destruct (Method_eqb (route_method r) m && String.eqb (route_path r) path) eqn:Hm.
  - injection Hd as <-. exists r. apply andb_prop in Hm as [Hm Hp].
    apply String.eqb_eq in Hp.
    split_and!; [set_solver | by destruct (route_method r), m | done | done].
  - destruct (IH Hd) as (r' & Hin & Hrm & Hrp & Hrh). exists r'.
    split_and!; [set_solver | done | done | done].
Qed.

(** Opens a handler up into its branches. *)
Ltac open_handler :=
  unfold Lat404.generate_registration_options, Lat404.verify_registration,
    Lat404.generate_authentication_options, Lat404.verify_authentication,
    ServerJs.verify_registration, ServerJs.verify_authentication,
    Lat.verify_registration, Lat.verify_authentication,
    V8App.verify_registration, V8App.verify_authentication,
    Dev.verify_registration, Dev.verify_authentication,

    Dev.generate_registration_options, Dev.generate_authentication_options,
    ServerJs.generate_registration_options,
    Lat.generate_registration_options, Lat.generate_authentication_options,
    V8.generate_registration_options, V8.generate_authentication_options,
    verify_registration, verify_authentication, health in *;
  repeat case_match; simplify_eq/=;
  repeat match goal with
         | Hb : _ ≫= _ = Some _ |- _ => apply bind_Some in Hb as (? & ? & Hb)
         end;
  simplify_eq/=.

(** Reduces a statement about every request to one about each handler of
    the table. *)
Ltac each_route H :=
  apply serve_handled in H as (r & Hin & <- & <- & H);
  unfold Lat.routes, ServerJs.routes, V8App.routes, Dev.routes, Lat404.routes in Hin;
  repeat (apply elem_of_cons in Hin as [->|Hin]); [..|by apply elem_of_nil in Hin];
  simpl in *.

(** ** Failures *)

(** X1: in the current file and in its four revisions with all four
    routes, a request that a handler answers with a status
    other than 200 leaves the [users] map exactly as it was: every error
    reply, of every route, comes before any write. *)
Theorem failed_requests_change_nothing :
  failures_change_nothing ServerJs.routes
  /\ failures_change_nothing Lat.routes
  /\ failures_change_nothing V8App.routes
  /\ failures_change_nothing Dev.routes
  /\ failures_change_nothing Lat404.routes.
Proof.
  split_and!; intros lib users m path body users' reply H Hst;
    each_route H; open_handler; try done; by destruct Hst.
Qed.

(** ** Identities *)

Lemma dom_insert_present (users : gmap string User) e user user' :
  users !! e = Some user -> dom (<[e := user']> users) = dom users.
Proof.
  intros Hu. rewrite dom_insert_L.
  assert (e ∈ dom users) by (apply elem_of_dom; eauto). set_solver.
Qed.

(** X2: in the same five files no request ever removes an identity from
    the [users] map, and only [POST /generate-registration-options] can add
    one: every other route leaves the set of known emails as it was. *)
Theorem identities_are_never_removed :
  identities_only_grow ServerJs.routes
  /\ identities_only_grow Lat.routes
  /\ identities_only_grow V8App.routes
  /\ identities_only_grow Dev.routes
  /\ identities_only_grow Lat404.routes.
Proof.
  split_and!; intros lib users m path body users' reply H;
    each_route H; open_handler;
    (split; [|intros Hpath]); try done;
    try (erewrite dom_insert_present by eassumption; done);
    try (rewrite dom_insert_L; set_solver).
Qed.


(** ** Runs *)

Lemma run_app routes reqs req :
  run routes (reqs ++ [req]) = store_after routes (run routes reqs) req.
Proof. unfold run. by rewrite fold_left_app. Qed.

(** An invariant of the empty store that every request keeps holds after
    every run. *)
Lemma run_preserves routes inv reqs :
  inv (∅ : gmap string User) -> preserved_by routes inv -> inv (run routes reqs).
Proof.
  intros Hempty Hkeep.
  induction reqs as [|req reqs IH] using rev_ind; [exact Hempty|].
  rewrite run_app. unfold store_after.
  destruct (serve routes _ _ _ _ _) as [users' reply|] eqn:Hs; [|exact IH].
  by eapply Hkeep.
Qed.

(** ** The current file cannot authenticate *)

(** Uses the invariant on the record a handler has looked up. *)
Ltac looked_up Hinv :=
  match goal with
  | Hl : _ !! _ = Some _ |- _ => apply Hinv in Hl; destruct Hl as [Hnone|[Hidle _]]
  end.

Ltac no_device :=
  match goal with
  | Hnone : devices _ = [], Hf : find_first _ _ = Some _ |- _ =>
      rewrite Hnone in Hf; discriminate Hf
  end.

Ltac no_challenge :=
  match goal with
  | Hidle : currentChallenge _ = None, Ht : truthy_val _ = Some _ |- _ =>
      rewrite Hidle in Ht; discriminate Ht
  end.

Lemma current_file_keeps_one_device_and_idle :
  preserved_by ServerJs.routes one_device_and_idle.
Proof.
  intros lib users m path body users' reply Hinv H.
  each_route H; open_handler; try done;
    apply map_Forall_insert_2; try done; simpl; auto.
  - (* a verified registration *)
    looked_up Hinv; [|no_challenge]. right. rewrite Hnone. auto.
  - (* a verified authentication *)
    looked_up Hinv; [no_device|no_challenge].
Qed.

(** X4: whatever requests the current [backend/server.js] has handled
    since it started, every identity holds at most one device and none that
    holds one has a pending challenge.  Hence [POST /verify-authentication]
    never reaches the verifier there: for every body and every library it
    leaves the store alone and answers with one of its four early failures,
    never with success. *)
Theorem current_file_never_authenticates reqs lib body :
  let users := run ServerJs.routes reqs in
  one_device_and_idle users
  /\ exists reply,
       ServerJs.verify_authentication lib users body = (users, reply)
       /\ reply ∈ [ sendError 400 "Faltan datos";
                    sendError 404 "Usuario no encontrado";
                    sendError 400 "No hay desafío";
                    sendError 400 "Dispositivo desconocido" ].
Proof.
  intros users.
  assert (Hinv : one_device_and_idle users).
  { apply run_preserves; [apply map_Forall_empty|].
    apply current_file_keeps_one_device_and_idle. }
  split; [exact Hinv|].
  destruct (ServerJs.verify_authentication lib users body) as [users' reply] eqn:H.
  assert (Hcases :
    users' = users
    /\ reply ∈ [ sendError 400 "Faltan datos"; sendError 404 "Usuario no encontrado";
                 sendError 400 "No hay desafío"; sendError 400 "Dispositivo desconocido" ]).
  { open_handler; try (split; [done | set_solver]);
      looked_up Hinv; solve [no_device | no_challenge]. }
  destruct Hcases as [-> Hin]. by exists reply.
Qed.

(** ** Credentials accumulate in the axltest.lat revision *)

Lemma map_insert_same {A B} (f : A -> B) (l : list A) i x x' :
  l !! i = Some x -> f x' = f x -> map f (<[i := x']> l) = map f l.
Proof.
  revert i. induction l as [|y l IH]; intros [|i] Hl Hf; simpl in *; try done.
  - injection Hl as ->. by rewrite Hf.
  - by rewrite (IH i).
Qed.

Lemma credential_keys_insert users e user' k :
  credential_keys (<[e := user']> users) k
  = if decide (e = k)
    then map (fun d => (credentialID d, credentialPublicKey d)) (devices user')
    else credential_keys users k.
Proof.
  unfold credential_keys, credentials_of.
  destruct (decide (e = k)) as [<-|Hne].
  - by rewrite lookup_insert_eq.
  - by rewrite lookup_insert_ne.
Qed.

Lemma credential_keys_lookup users e user :
  users !! e = Some user ->
  credential_keys users e
  = map (fun d => (credentialID d, credentialPublicKey d)) (devices user).
Proof. intros Hu. unfold credential_keys, credentials_of. by rewrite Hu. Qed.

Lemma credential_keys_unknown users e :
  users !! e = None -> credential_keys users e = [].
Proof. intros Hu. unfold credential_keys, credentials_of. by rewrite Hu. Qed.

Lemma Lat_request_keeps_credentials lib users m path body users' reply k :
  serve Lat.routes lib users m path body = Handled users' reply ->
  credential_keys users k `prefix_of` credential_keys users' k.
Proof.
  intros H. each_route H; open_handler; try done;
    rewrite credential_keys_insert; case_decide; subst; try done; simpl.
  - erewrite credential_keys_lookup by eassumption. done.
  - by erewrite credential_keys_unknown by eassumption.
  - erewrite credential_keys_lookup by eassumption.
    rewrite map_app. by apply prefix_app_r.
  - erewrite credential_keys_lookup by eassumption. done.
  - erewrite credential_keys_lookup by eassumption.
    match goal with Hf : find_first _ _ = Some _ |- _ =>
      apply find_first_lookup in Hf as [Hf _] end.
    by erewrite map_insert_same by (eassumption || reflexivity).
Qed.

(** X5: in the axltest.lat revision no request, and so no sequence of
    requests, removes a stored credential or changes its id or public key:
    for every identity the list of (id, public key) pairs held after some
    requests is a prefix of the list held after any further requests. *)
Theorem Lat_credentials_accumulate reqs more k :
  credential_keys (run Lat.routes reqs) k
  `prefix_of` credential_keys (run Lat.routes (reqs ++ more)) k.
Proof.
  induction more as [|req more IH] using rev_ind.
  - by rewrite app_nil_r.
  - rewrite app_assoc, run_app. etrans; [exact IH|].
    unfold store_after.
    destruct (serve Lat.routes _ _ _ _ _) as [users' reply|] eqn:Hs; [|done].
    by eapply Lat_request_keeps_credentials.
Qed.

(** ** Which device an authentication touches *)




(** ** The counter under a verifier that checks it *)

Lemma credentials_of_insert users e user' :
  credentials_of (<[e := user']> users) e = devices user'.
Proof. unfold credentials_of. by rewrite lookup_insert_eq. Qed.

Lemma credentials_of_insert_ne users e user' k :
  e <> k -> credentials_of (<[e := user']> users) k = credentials_of users k.
Proof. intros Hne. unfold credentials_of. by rewrite lookup_insert_ne. Qed.

Lemma credentials_of_lookup users e user :
  users !! e = Some user -> credentials_of users e = devices user.
Proof. intros Hu. unfold credentials_of. by rewrite Hu. Qed.

(** X7: in the axltest.lat revision, while the verifier enforces the
    counter order, no request lowers a stored counter: every device an
    identity holds before a request is still at its place afterwards, with
    the same id and a counter at least as large. *)
Theorem counters_never_decrease_under_guarding_verifier
    lib users m path body users' reply k j d :
  guards_counter lib ->
  serve Lat.routes lib users m path body = Handled users' reply ->
  credentials_of users k !! j = Some d ->
  exists d',
    credentials_of users' k !! j = Some d'
    /\ credentialID d' = credentialID d
    /\ (counter d <= counter d')%N.
Proof.
  intros Hguard H Hd.
  assert (Hsame : credentials_of users' k = credentials_of users k ->
                  exists d', credentials_of users' k !! j = Some d'
                             /\ credentialID d' = credentialID d
                             /\ (counter d <= counter d')%N).
  { intros ->. exists d. split_and!; [done | done | lia]. }
  each_route H.
  - (* generate-registration-options *)
    apply Hsame. rewrite <- (Lat_begin_registration_keeps_credentials lib users body k).
    by rewrite H.
  - (* verify-registration *)
    destruct (verify_registration_cases "https://axltest.lat" "axltest.lat" lib users body)
      as [(e & r & user & c & v & info & _ & _ & _ & Hu & _ & _ & _ & _ & _ & Heq)
         | (reply' & _ & Heq)];
      unfold Lat.verify_registration in H; rewrite Heq in H; injection H as <- <-;
      [|by apply Hsame].
    destruct (decide (e = k)) as [<-|Hne].
    + rewrite credentials_of_insert. simpl.
      rewrite (credentials_of_lookup _ _ _ Hu) in Hd.
      exists d. split_and!; [by apply lookup_app_l_Some | done | lia].
    + apply Hsame. by apply credentials_of_insert_ne.
  - (* generate-authentication-options *)
    apply Hsame. open_handler; try done.
    match goal with Hu : users !! ?e = Some _ |- _ =>
      destruct (decide (e = k)) as [<-|Hne];
        [rewrite credentials_of_insert; by rewrite (credentials_of_lookup _ _ _ Hu)
        |by apply credentials_of_insert_ne]
    end.
  - (* verify-authentication *)
    destruct (verify_authentication_cases "https://axltest.lat" "axltest.lat" lib users body)
      as [(e & r & user & c & i & device & n & _ & _ & _ & Hu & _ & _ & Hf & Hacc & Heq)
         | (reply' & _ & Heq)];
      unfold Lat.verify_authentication in H; rewrite Heq in H; injection H as <- <-;
      [|by apply Hsame].
    destruct (decide (e = k)) as [<-|Hne]; [|apply Hsame; by apply credentials_of_insert_ne].
    rewrite credentials_of_insert. simpl.
    rewrite (credentials_of_lookup _ _ _ Hu) in Hd.
    apply find_first_lookup in Hf as [Hl _].
    destruct (decide (i = j)) as [<-|Hij].
    + rewrite Hl in Hd. injection Hd as <-.
      exists (set_counter n device). split_and!.
      * apply list_lookup_insert_eq. by eapply lookup_lt_Some.
      * done.
      * apply Hguard in Hacc. simpl in *. lia.
    + exists d. split_and!; [by rewrite list_lookup_insert_ne | done | lia].
  - (* health *)
    apply Hsame. by injection H as <- _.
Qed.

(** X7 at work: [alice] holds "cred-1" at counter 5 and authenticates with
    a response reporting 9. *)
Lemma counters_never_decrease_under_guarding_verifier_witness :
  exists d',
    credentials_of
      (fst (Lat.verify_authentication (checking_library "u-1" "c-2") (alice_with 5 "c-2")
              (request alice (Some (assertion "cred-1" "c-2" 9))))) alice !! 0 = Some d'
    /\ credentialID d' = "cred-1"
    /\ (5 <= counter d')%N.
Proof.
  apply (counters_never_decrease_under_guarding_verifier
           (checking_library "u-1" "c-2") (alice_with 5 "c-2") POST "/verify-authentication"
           (request alice (Some (assertion "cred-1" "c-2" 9)))
           (fst (Lat.verify_authentication (checking_library "u-1" "c-2") (alice_with 5 "c-2")
                   (request alice (Some (assertion "cred-1" "c-2" 9)))))
           (snd (Lat.verify_authentication (checking_library "u-1" "c-2") (alice_with 5 "c-2")
                   (request alice (Some (assertion "cred-1" "c-2" 9)))))
           alice 0
           {| credentialID := "cred-1"; credentialPublicKey := "key of cred-1"; counter := 5 |}).
  - apply checking_library_guards_counter.
  - unfold serve. simpl. by destruct (Lat.verify_authentication _ _ _).
  - reflexivity.
Defined.

(** ** From registration to authentication *)





(** ** A registration start without a challenge *)

(** X9: when the library returns registration options that carry no
    usable challenge, the current file still stores the identity and answers
    200 with those options, after which every [POST /verify-registration]
    for the identity is answered "No hay desafío"; the axltest.dev revision
    that checks the challenge answers 500 instead and stores nothing, so
    that there a 200 from [POST /generate-registration-options] always
    leaves the identity a non-empty pending challenge. *)
Theorem registration_start_without_challenge :
  (forall lib users e o,
      e <> "" ->
      generateRegistrationOptions lib (ServerJs_registration_options_args (uuidv4 lib) e)
      = Returned o ->
      truthy (challenge o) = false ->
      exists users1,
        ServerJs.generate_registration_options lib users (request e None)
        = (users1, res_json (JOptions o))
        /\ forall lib' r,
             ServerJs.verify_registration lib' users1 (request e (Some r))
             = (users1, sendError 400 "No hay desafío"))
  /\ (forall lib users body o,
        (forall a, generateRegistrationOptions lib a = Returned o) ->
        truthy (challenge o) = false ->
        truthy (email body) = true ->
        Dev.generate_registration_options lib users body
        = (users,
           sendError 500
             "Error interno: La librería WebAuthn devolvió objeto vacío - verificar configuración"))
  /\ (forall lib users body users1 reply,
        Dev.generate_registration_options lib users body = (users1, reply) ->
        status reply = 200 ->
        exists e c, email body = Some e /\ pending users1 e = Some c /\ c <> "").
Proof.
  split_and!.
  - intros lib users e o He Hlib Hfalsy.
    eexists. split.
    + unfold ServerJs.generate_registration_options, request. simpl.
      rewrite (truthy_val_of_Some e He).
      unfold ServerJs_registration_options_args in Hlib. by rewrite Hlib.
    + intros lib' r. unfold ServerJs.verify_registration, verify_registration, request. simpl.
      rewrite (truthy_val_of_Some e He), lookup_insert_eq. simpl.
      unfold truthy_val. by rewrite Hfalsy.
  - intros lib users body o Hlib Hfalsy Hemail.
    unfold Dev.generate_registration_options, truthy_val.
    rewrite Hemail. destruct (email body) as [e|]; [|done].
    by rewrite Hlib, Hfalsy.
  - intros lib users body users1 reply Hrun Hst.
    unfold Dev.generate_registration_options in Hrun.
    destruct (truthy_val (email body)) as [e|] eqn:He; [|by simplify_eq].
    apply truthy_val_Some in He as [He _].
    destruct (generateRegistrationOptions lib _) as [o|]; [|by simplify_eq].
    destruct (truthy (challenge o)) eqn:Ht; simpl in Hrun; [|by simplify_eq].
    injection Hrun as <- <-.
    destruct (challenge o) as [c|] eqn:Hc; [|done].
    exists e, c. split_and!; [done | |].
    + unfold pending. rewrite lookup_insert_eq. simpl. done.
    + intros ->. done.
Qed.

Lemma registration_start_without_challenge_witness :
  let lib := checking_library "u-1" "" in
  let o := {| challenge := Some ""; options_rest := "" |} in
  Dev.generate_registration_options lib ∅ (request alice None)
  = (∅,
     sendError 500
       "Error interno: La librería WebAuthn devolvió objeto vacío - verificar configuración")
  /\ exists users1,
       ServerJs.generate_registration_options lib ∅ (request alice None)
       = (users1, res_json (JOptions o))
       /\ forall lib' r,
            ServerJs.verify_registration lib' users1 (request alice (Some r))
            = (users1, sendError 400 "No hay desafío").
Proof.
  intros lib o.
  destruct registration_start_without_challenge as (Hcurrent & Hdev & _).
  split.
  - apply (Hdev lib ∅ (request alice None) o); [intros a; reflexivity | reflexivity | reflexivity].
  - apply (Hcurrent lib ∅ alice o); [discriminate | reflexivity | reflexivity].
Defined.

(** ** Two revisions of one server *)









(** * The front end *)

(** ** Matching by derivatives *)

Lemma matches_cat_inv r1 r2 s :
  matches (RCat r1 r2) s ->
  exists s1 s2, s = s1 ++ s2 /\ matches r1 s1 /\ matches r2 s2.
Proof. inversion 1; subst; eauto. Qed.

Lemma matches_alt_inv r1 r2 s :
  matches (RAlt r1 r2) s -> matches r1 s \/ matches r2 s.
Proof. inversion 1; subst; eauto. Qed.

Lemma matches_class_inv cls s :
  matches (RClass cls) s -> exists c, s = String c "" /\ cls c = true.
Proof. inversion 1; subst; eauto. Qed.

Lemma matches_none_inv s : ~ matches RNone s.
Proof. inversion 1. Qed.

Lemma matches_eps_inv s : matches REps s -> s = "".
Proof. by inversion 1. Qed.

Lemma append_nil_l (s : string) : "" ++ s = s.
Proof. reflexivity. Qed.

Lemma append_cons c (s1 s2 : string) : String c s1 ++ s2 = String c (s1 ++ s2).
Proof. reflexivity. Qed.

Lemma append_empty (s1 s2 : string) : s1 ++ s2 = "" -> s1 = "" /\ s2 = "".
Proof. destruct s1; simpl; [done | discriminate]. Qed.

Lemma nullable_matches r : nullable r = true <-> matches r "".
Proof.
  induction r as [| |cls|r1 IH1 r2 IH2|r1 IH1 r2 IH2|r IH]; simpl.
  - split; [discriminate | by intros ?%matches_none_inv].
  - split; [constructor | done].
  - split; [discriminate | intros (c & Hc & _)%matches_class_inv; discriminate].
  - rewrite andb_true_iff, IH1, IH2. split.
    + intros [H1 H2]. apply (matches_cat _ _ "" "" H1 H2).
    + intros (s1 & s2 & Heq & H1 & H2)%matches_cat_inv.
      symmetry in Heq. apply append_empty in Heq as [-> ->]. done.
  - rewrite orb_true_iff, IH1, IH2. split.
    + intros [H|H]; [by apply matches_alt_l | by apply matches_alt_r].
    + by intros ?%matches_alt_inv.
  - split; [constructor | done].
Qed.

Lemma matches_star_step r c s :
  matches (RStar r) (String c s) ->
  exists s1 s2, s = s1 ++ s2 /\ matches r (String c s1) /\ matches (RStar r) s2.
Proof.
  intros H. remember (RStar r) as r' eqn:Hr. remember (String c s) as cs eqn:Hcs.
  revert c s Hcs.
  induction H as [| |? ? ? ? ? ? ? ?| | | |r0 s1 s2 H1 _ H2 IH2]; intros a t Hcs;
    try discriminate.
  injection Hr as ->.
  destruct s1 as [|c1 s1].
  - rewrite append_nil_l in Hcs. by apply IH2.
  - rewrite append_cons in Hcs. injection Hcs as -> <-. by exists s1, s2.
Qed.

Lemma deriv_matches c r s : matches (deriv c r) s <-> matches r (String c s).
Proof.
  revert s. induction r as [| |cls|r1 IH1 r2 IH2|r1 IH1 r2 IH2|r IH]; intros s; simpl.
  - split; by intros ?%matches_none_inv.
  - split; [by intros ?%matches_none_inv | intros ?%matches_eps_inv; discriminate].
  - destruct (cls c) eqn:Hc; split.
    + intros ->%matches_eps_inv. by constructor.
    + intros (c' & [= <- ->] & _)%matches_class_inv. constructor.
    + by intros ?%matches_none_inv.
    + intros (c' & [= <- ->] & Hc')%matches_class_inv. congruence.
  - assert (Hcat : matches (RCat (deriv c r1) r2) s ->
                   matches (RCat r1 r2) (String c s)).
    { intros (s1 & s2 & -> & H1 & H2)%matches_cat_inv.
      apply IH1 in H1. apply (matches_cat _ _ (String c s1) s2 H1 H2). }
    assert (Hback : matches (RCat r1 r2) (String c s) ->
                    matches (RCat (deriv c r1) r2) s
                    \/ (nullable r1 = true /\ matches (deriv c r2) s)).
    { intros (s1 & s2 & Heq & H1 & H2)%matches_cat_inv.
      destruct s1 as [|c1 s1]; rewrite ?append_nil_l, ?append_cons in Heq.
      - subst s2. right. split; [by apply nullable_matches | by apply IH2].
      - injection Heq as -> ->. left. apply matches_cat; [by apply IH1 | done]. }
    destruct (nullable r1) eqn:Hn; split.
    + intros [H|H]%matches_alt_inv; [auto|].
      apply (matches_cat _ _ "" (String c s)); [by apply nullable_matches | by apply IH2].
    + intros H. destruct (Hback H) as [H'|[_ H']];
        [by apply matches_alt_l | by apply matches_alt_r].
    + exact Hcat.
    + intros H. destruct (Hback H) as [H'|[? _]]; [done | discriminate].
  - split.
    + intros [H|H]%matches_alt_inv;
        [apply matches_alt_l; by apply IH1 | apply matches_alt_r; by apply IH2].
    + intros [H|H]%matches_alt_inv;
        [apply matches_alt_l; by apply IH1 | apply matches_alt_r; by apply IH2].
  - split.
    + intros (s1 & s2 & -> & H1 & H2)%matches_cat_inv.
      apply IH in H1. apply (matches_star_cons _ (String c s1) s2 H1 H2).
    + intros H. apply matches_star_step in H as (s1 & s2 & -> & H1 & H2).
      apply matches_cat; [by apply IH | done].
Qed.

(** [regex_test] decides [matches]. *)
Lemma regex_test_matches r s : regex_test r s = true <-> matches r s.
Proof.
  revert r. induction s as [|c s IH]; intros r; simpl.
  - apply nullable_matches.
  - rewrite IH. apply deriv_matches.
Qed.

(** ** The email pattern *)

Lemma list_of_append (s1 s2 : string) :
  String.list_ascii_of_string (s1 ++ s2)
  = (String.list_ascii_of_string s1 ++ String.list_ascii_of_string s2)%list.
Proof. induction s1 as [|c s1 IH]; [done|]. rewrite append_cons. simpl. by rewrite IH. Qed.

Lemma matches_star_class cls s :
  matches (RStar (RClass cls)) s <-> forallb cls (String.list_ascii_of_string s) = true.
Proof.
  split.
  - intros H. remember (RStar (RClass cls)) as r eqn:Hr.
    induction H as [| | | | | |r0 s1 s2 H1 _ _ IH2]; try discriminate; [done|].
    injection Hr as ->. apply matches_class_inv in H1 as (c & -> & Hc).
    rewrite append_cons, append_nil_l. simpl. rewrite Hc. by apply IH2.
  - induction s as [|c s IH]; simpl; [constructor|].
    intros [Hc Hs]%andb_true_iff.
    apply (matches_star_cons _ (String c "") s); [by constructor | by apply IH].
Qed.

Lemma matches_plus_class cls s :
  matches (RPlus (RClass cls)) s
  <-> s <> "" /\ forallb cls (String.list_ascii_of_string s) = true.
Proof.
  unfold RPlus. split.
  - intros (s1 & s2 & -> & (c & -> & Hc)%matches_class_inv & H2%matches_star_class)%matches_cat_inv.
    rewrite append_cons, append_nil_l. split; [done|]. simpl. by rewrite Hc.
  - intros [Hne Hall]. destruct s as [|c s]; [done|]. simpl in Hall.
    apply andb_true_iff in Hall as [Hc Hs].
    apply (matches_cat _ _ (String c "") s); [by constructor | by apply matches_star_class].
Qed.

Lemma matches_char c s :
  matches (RClass (fun c' => Ascii.eqb c' c)) s <-> s = String c "".
Proof.
  split.
  - intros (c' & -> & Hc)%matches_class_inv. by apply Ascii.eqb_eq in Hc as ->.
  - intros ->. constructor. apply Ascii.eqb_refl.
Qed.

Lemma email_pattern_parts (str : string) :
  Front.isValidEmail str = true
  <-> exists a b c,
        str = a ++ "@" ++ b ++ "." ++ c
        /\ name_part a /\ name_part b /\ name_part c.
Proof.
  unfold Front.isValidEmail. rewrite regex_test_matches. unfold Front.email_pattern. split.
  - intros (a & s1 & -> & Ha%matches_plus_class
            & (at_ & s2 & -> & Hat%matches_char
               & (b & s3 & -> & Hb%matches_plus_class
                  & (dot & c & -> & Hdot%matches_char
                     & Hc%matches_plus_class)%matches_cat_inv)%matches_cat_inv
              )%matches_cat_inv)%matches_cat_inv.
    subst. by exists a, b, c.
  - intros (a & b & c & -> & Ha & Hb & Hc).
    apply matches_cat; [by apply matches_plus_class|].
    apply matches_cat; [by apply matches_char|].
    apply matches_cat; [by apply matches_plus_class|].
    apply matches_cat; [by apply matches_char | by apply matches_plus_class].
Qed.


Lemma occurrences_append c (s1 s2 : string) :
  occurrences c (s1 ++ s2) = occurrences c s1 + occurrences c s2.
Proof.
  induction s1 as [|c1 s1 IH]; [done|]. rewrite append_cons. simpl. rewrite IH. lia.
Qed.


Lemma name_part_facts s :
  name_part s ->
  occurrences "@" s = 0
  /\ forallb (fun c => negb (is_white_space c)) (String.list_ascii_of_string s) = true
  /\ 1 <= String.length s.
Proof.
  intros [Hne Hall]. split_and!.
  - clear Hne. induction s as [|c s IH]; [done|]. simpl in *.
    apply andb_true_iff in Hall as [Hc Hs]. unfold Front.name_char in Hc.
    apply andb_true_iff in Hc as [_ Hat]. apply negb_true_iff in Hat.
    rewrite Hat. by rewrite IH.
  - clear Hne. induction s as [|c s IH]; [done|]. simpl in *.
    apply andb_true_iff in Hall as [Hc Hs]. unfold Front.name_char in Hc.
    apply andb_true_iff in Hc as [Hws _]. rewrite Hws. by apply IH.
  - destruct s; [done | simpl; lia].
Qed.



(** ** Trimming *)

Lemma trimStart_blank_append ws s : blank ws -> Front.trimStart (ws ++ s) = Front.trimStart s.
Proof.
  unfold blank. induction ws as [|c ws IH]; [done|]. simpl.
  intros [Hc Hws]%andb_true_iff. rewrite ?append_cons. simpl. rewrite Hc. by apply IH.
Qed.

Lemma trimStart_split s : exists ws, blank ws /\ s = ws ++ Front.trimStart s.
Proof.
  induction s as [|c s (ws & Hws & Hs)]; [by exists ""|]. simpl.
  destruct (is_white_space c) eqn:Hc.
  - exists (String c ws). split.
    + unfold blank in *. simpl. by rewrite Hc.
    + rewrite ?append_cons. by rewrite <- Hs.
  - by exists "".
Qed.

Lemma trimEnd_blank ws : blank ws -> Front.trimEnd ws = "".
Proof.
  unfold blank. induction ws as [|c ws IH]; [done|]. simpl.
  intros [Hc Hws]%andb_true_iff. by rewrite (IH Hws), Hc.
Qed.

Lemma trimEnd_append_blank s ws : blank ws -> Front.trimEnd (s ++ ws) = Front.trimEnd s.
Proof.
  intros Hws. induction s as [|c s IH].
  - rewrite ?append_nil_l. by apply trimEnd_blank.
  - rewrite ?append_cons. simpl. by rewrite IH.
Qed.

Lemma trimEnd_split s : exists ws, blank ws /\ s = Front.trimEnd s ++ ws.
Proof.
  induction s as [|c s (ws & Hws & Hs)]; [by exists ""|]. simpl.
  destruct (Front.trimEnd s) as [|c' rest] eqn:Hend.
  - destruct (is_white_space c) eqn:Hc.
    + exists (String c ws). split.
      * unfold blank in *. simpl. by rewrite Hc.
      * rewrite ?append_nil_l in *. by rewrite <- Hs.
    + exists ws. split; [done|]. rewrite ?append_cons, ?append_nil_l in *. by rewrite <- Hs.
  - exists ws. split; [done|]. rewrite ?append_cons in *. by rewrite <- Hs.
Qed.

Lemma trim_bare s :
  s <> "" ->
  forallb (fun c => negb (is_white_space c)) (String.list_ascii_of_string s) = true ->
  Front.trimStart s = s /\ Front.trimEnd s = s.
Proof.
  intros Hne Hall. split.
  - destruct s as [|c s]; [done|]. simpl in *.
    apply andb_true_iff in Hall as [Hc _]. apply negb_true_iff in Hc. by rewrite Hc.
  - clear Hne. induction s as [|c s IH]; [done|]. simpl in *.
    apply andb_true_iff in Hall as [Hc Hs]. apply negb_true_iff in Hc.
    rewrite (IH Hs). destruct s; [by rewrite Hc | done].
Qed.

Lemma valid_is_bare s :
  Front.isValidEmail s = true ->
  s <> ""
  /\ forallb (fun c => negb (is_white_space c)) (String.list_ascii_of_string s) = true.
Proof.
  intros (a & b & c & -> & Ha & Hb & Hc)%email_pattern_parts.
  split; [destruct Ha as [Ha _]; by destruct a|].
  apply name_part_facts in Ha as (_ & Ha & _).
  apply name_part_facts in Hb as (_ & Hb & _).
  apply name_part_facts in Hc as (_ & Hc & _).
  rewrite !list_of_append, !forallb_app, Ha, Hb, Hc. reflexivity.
Qed.

Lemma cleanEmail_padded email clean :
  Front.cleanEmail email = Some clean
  <-> exists before after,
        blank before /\ blank after
        /\ email = before ++ clean ++ after
        /\ Front.isValidEmail clean = true.
Proof.
  unfold Front.cleanEmail. split.
  - destruct (negb (truthy (Some (Front.trim email)))) eqn:Ht; simpl; [discriminate|].
    destruct (Front.isValidEmail (Front.trim email)) eqn:Hv; simpl; [|discriminate].
    intros [= <-].
    destruct (trimStart_split email) as (before & Hb & Heq).
    destruct (trimEnd_split (Front.trimStart email)) as (after & Ha & Heq').
    exists before, after. split_and!; try done.
    rewrite Heq at 1. by rewrite Heq' at 1.
  - intros (before & after & Hb & Ha & -> & Hv).
    destruct (valid_is_bare clean Hv) as [Hne Hbare].
    destruct (trim_bare clean Hne Hbare) as [Hs He].
    assert (Htrim : Front.trim (before ++ clean ++ after) = clean).
    { unfold Front.trim. rewrite (trimStart_blank_append _ _ Hb).
      destruct clean as [|c clean]; [done|].
      rewrite ?append_cons in *. simpl in Hs |- *.
      destruct (is_white_space c) eqn:Hc.
      - simpl in Hbare. by rewrite Hc in Hbare.
      - rewrite <- append_cons. rewrite (trimEnd_append_blank _ _ Ha). exact He. }
    rewrite Htrim, Hv. simpl.
    destruct (String.eqb_spec clean ""); [done|]. reflexivity.
Qed.


(** ** The handlers against the server *)

Lemma blank_has_no_at ws : blank ws -> occurrences "@" ws = 0.
Proof.
  unfold blank. induction ws as [|c ws IH]; [done|]. simpl.
  intros [Hc Hws]%andb_true_iff. rewrite (IH Hws).
  destruct (Ascii.eqb_spec c "@") as [->|_]; [discriminate Hc | done].
Qed.

Lemma cleanEmail_one_at email clean :
  Front.cleanEmail email = Some clean -> occurrences "@" email = 1.
Proof.
  intros (before & after & Hb & Ha & -> & Hv)%cleanEmail_padded.
  rewrite !occurrences_append, (blank_has_no_at _ Hb), (blank_has_no_at _ Ha).
  apply email_pattern_parts in Hv as (a & b & c & -> & Hpa & Hpb & Hpc).
  apply name_part_facts in Hpa as (Ha0 & _). apply name_part_facts in Hpb as (Hb0 & _).
  apply name_part_facts in Hpc as (Hc0 & _).
  rewrite !occurrences_append, Ha0, Hb0, Hc0. reflexivity.
Qed.

(** X13: when the entered email does not hold exactly one "@",
    [registerWebAuthn] and [loginWebAuthn] set the one status "Por favor
    ingresa un email válido" and return: no request is sent, no prompt is
    opened and the server's store is untouched, whatever the server is. *)
Theorem email_without_one_at_sends_nothing w email n users :
  occurrences "@" email <> 1 ->
  perform w (Front.registerWebAuthn email) n users
  = (users, ["❌ Por favor ingresa un email válido"])
  /\ perform w (Front.loginWebAuthn email) n users
     = (users, ["❌ Por favor ingresa un email válido"]).
Proof.
  intros Hat. unfold Front.registerWebAuthn, Front.loginWebAuthn.
  destruct (Front.cleanEmail email) as [clean|] eqn:Hguard; [|done].
  by apply cleanEmail_one_at in Hguard.
Qed.

(** X13 at work: an email with two "@". *)
Lemma email_without_one_at_sends_nothing_witness :
  perform (world Lat.routes (fun _ => checking_library "u" "c") 0) (Front.registerWebAuthn "a@b@c.d")
    0 (alice_with 0 "c")
  = (alice_with 0 "c", ["❌ Por favor ingresa un email válido"])
  /\ perform (world Lat.routes (fun _ => checking_library "u" "c") 0) (Front.loginWebAuthn "a@b@c.d")
       0 (alice_with 0 "c")
     = (alice_with 0 "c", ["❌ Por favor ingresa un email válido"]).
Proof. apply email_without_one_at_sends_nothing. discriminate. Defined.

Lemma http_error_truthy response :
  or_else (Some (Front.http_error response)) "Desconocido" = Front.http_error response.
Proof. reflexivity. Qed.

(** X14: against the current [backend/server.js], whose table has no
    route for [/generate-authentication-options], [loginWebAuthn] can only
    fail: for every entered email, store and library it either stops at the
    email guard or shows the error built from the framework's answer to the
    unknown route.  The authenticator is never prompted, no welcome is ever
    shown and the store is left as it was. *)
Theorem login_fails_against_current_file w email n users :
  w_routes w = ServerJs.routes ->
  fr_ok (w_unrouted w) = false ->
  exists shown,
    perform w (Front.loginWebAuthn email) n users = (users, shown)
    /\ (shown = ["❌ Por favor ingresa un email válido"]
        \/ shown = [ "1️⃣ Generando desafío de autenticación...";
                     "🚨 ERROR: " ++ Front.http_error (w_unrouted w) ]).
Proof.
  intros Hroutes Hnot_ok. unfold Front.loginWebAuthn.
  destruct (Front.cleanEmail email) as [clean|]; [|eexists; split; [reflexivity | by left]].
  eexists. split; [|by right].
  cbn [perform]. rewrite Hroutes.
  change (serve ServerJs.routes (w_library w n) users POST "/generate-authentication-options"
            {| email := Some clean; response := None |}) with Unrouted.
  cbn [http_response]. rewrite Hnot_ok. cbn [negb]. unfold Front.caught.
  cbn [perform]. by rewrite http_error_truthy.
Qed.

(** X14 at work: [alice], registered, tries to log in. *)
Lemma login_fails_against_current_file_witness :
  exists shown,
    perform (world ServerJs.routes (fun _ => checking_library "u" "c") 1) (Front.loginWebAuthn alice)
      0 (alice_with 0 "c")
    = (alice_with 0 "c", shown)
    /\ (shown = ["❌ Por favor ingresa un email válido"]
        \/ shown = [ "1️⃣ Generando desafío de autenticación...";
                     "🚨 ERROR: " ++ Front.http_error
                                      (w_unrouted (world ServerJs.routes
                                                     (fun _ => checking_library "u" "c") 1)) ]).
Proof. apply login_fails_against_current_file; reflexivity. Defined.


Lemma serve_dispatch routes lib users m path body h :
  dispatch routes m path = Some h ->
  serve routes lib users m path body
  = let '(users', reply) := h lib users body in Handled users' reply.
Proof. intros Hd. unfold serve. by rewrite Hd. Qed.











(** ** The earlier login handler *)

Lemma cleanEmail_nonempty email clean :
  Front.cleanEmail email = Some clean -> email <> "".
Proof. intros H ->. discriminate H. Qed.

(** X19: the earlier [loginWebAuthn] asks for the identity under the email
    exactly as typed, while [registerWebAuthn] registers it under the
    trimmed email.  So, against the axltest.lat revision, an email typed
    with white space around it that passes the registration guard does not
    log in while no identity is stored under the typed text: the server
    answers 404 "Usuario no registrado", the handler shows the HTTP error,
    the authenticator is not prompted and the store is unchanged.  The
    current [loginWebAuthn] sends the trimmed email instead. *)
Theorem earlier_login_sends_email_as_typed w email clean n users :
  w_routes w = Lat.routes ->
  Front.cleanEmail email = Some clean ->
  users !! email = None ->
  perform w (FrontOld.loginWebAuthn email) n users
  = (users,
     [ "1️⃣ Generando desafío de autenticación...";
       "🚨 ERROR: HTTP 404: "
       ++ String.substring 0 100 (w_stringify w (JError "Usuario no registrado")) ])
  /\ exists next,
       Front.loginWebAuthn email
       = SetStatus "1️⃣ Generando desafío de autenticación..."
           (Fetch "/generate-authentication-options"
              {| email := Some clean; response := None |} next).
Proof.
  intros Hroutes Hclean Hunknown.
  pose proof (cleanEmail_nonempty _ _ Hclean) as Hne.
  split.
  - unfold FrontOld.loginWebAuthn. cbn [perform]. rewrite Hroutes.
    rewrite (serve_dispatch Lat.routes _ _ POST "/generate-authentication-options" _
               Lat.generate_authentication_options eq_refl).
    unfold Lat.generate_authentication_options.
    change (truthy_val _) with (truthy_val (Some email)).
    rewrite (truthy_val_of_Some email Hne), Hunknown.
    reflexivity.
  - unfold Front.loginWebAuthn. rewrite Hclean. eexists. reflexivity.
Qed.

(** X19 at work: [alice] is registered and the email is typed with a
    leading space. *)
Lemma earlier_login_sends_email_as_typed_witness :
  let w := world Lat.routes (fun _ => checking_library "u" "c-9") 4 in
  perform w (FrontOld.loginWebAuthn " a@example.com") 0 (alice_with 3 "old")
  = (alice_with 3 "old",
     [ "1️⃣ Generando desafío de autenticación...";
       "🚨 ERROR: HTTP 404: "
       ++ String.substring 0 100 (w_stringify w (JError "Usuario no registrado")) ])
  /\ exists next,
       Front.loginWebAuthn " a@example.com"
       = SetStatus "1️⃣ Generando desafío de autenticación..."
           (Fetch "/generate-authentication-options"
              {| email := Some alice; response := None |} next).
Proof.
  intros w.
  apply (earlier_login_sends_email_as_typed w " a@example.com" alice 0 (alice_with 3 "old"));
    [reflexivity | reflexivity | vm_compute; reflexivity].
Defined.
